(** * ClarityApp: the resolution workspace store of [index.tsx]

    A shallow embedding of the zustand store ([useStore]), of the diff
    helper [simpleDiff], of the mock registry [MOCK_CONFLICTS] and of the
    event handlers of the [ConflictWorkspace], [ResolvedView] and [Sidebar]
    components, followed by the properties of the workspace state machine.

    Conventions of the embedding:
    - a JavaScript string is a [string]; [s.length] is [String.length s] and
      [a === b] on strings is [String.eqb a b];
    - an optional field ([f?: T]) and a nullable one ([T | null]) are
      [option T];
    - [Record<string, ManualEdit>] is a [gmap string ManualEdit];
    - [set(partial)] of zustand is written out as a record with the named
      fields replaced and every other field copied;
    - [new Date().toISOString()] is the argument [now] of the action that
      reads the clock. *)

From Stdlib Require Import String Ascii List Bool Arith ZArith Lia.
From stdpp Require Import base option list gmap strings fin_maps.

Set Warnings "-register-all".
Open Scope string_scope.

(** ** Types (index.tsx, lines 36-88) *)

Inductive ViewState := V_login | V_upload | V_analyzing | V_dashboard.
Inductive ConflictType := TEMPORAL | CONTRADICTION | INTRA_DOC.
Inductive ResolutionStatus := OPEN | RESOLVED.
Inductive WorkspaceMode :=
  M_view | M_resolve | M_preview | M_verifying | M_resolved | M_all_cleared.
Inductive ManualAction := UPDATE | CLARIFY | ERROR | KEEP.
Inductive SourceType := Main | Appendix | Policy | RFP.
Inductive UploadStatus := pending | uploading | complete | error.

#[global] Instance ConflictType_eq_dec : EqDecision ConflictType.
Proof. solve_decision. Defined.
#[global] Instance ResolutionStatus_eq_dec : EqDecision ResolutionStatus.
Proof. solve_decision. Defined.
#[global] Instance WorkspaceMode_eq_dec : EqDecision WorkspaceMode.
Proof. solve_decision. Defined.
#[global] Instance ManualAction_eq_dec : EqDecision ManualAction.
Proof. solve_decision. Defined.

Record Mention := mkMention {
  m_id : string;
  m_docId : string;
  m_docName : string;
  m_page : Z;
  m_section : string;
  m_text : string;
  m_date : option string;
  m_sourceType : option SourceType
}.

Record Conflict := mkConflict {
  c_id : string;
  c_type : ConflictType;
  c_title : string;
  c_description : string;
  c_mentions : list Mention;
  c_status : ResolutionStatus;
  c_aiRecommendation : option string;
  c_resolvedAt : option string
}.

Record ManualEdit := mkManualEdit {
  text : string;
  action : ManualAction;
  isDirty : bool
}.

Record ResolutionDraft := mkDraft {
  conflictId : string;
  selectedTemporalId : option string;
  keepHistory : option bool;
  selectedCorrectId : option string;
  reasoning : option string;
  edits : gmap string ManualEdit
}.

Record UploadFile := mkUploadFile {
  f_name : string;
  f_size : string;
  f_status : UploadStatus
}.

Record StoreState := mkStore {
  view : ViewState;
  currentUser : option string;
  files : list UploadFile;
  conflicts : list Conflict;
  selectedConflictId : option string;
  workspaceMode : WorkspaceMode;
  resolutionDraft : option ResolutionDraft
}.

(** [Partial<ResolutionDraft>]: for each key, [None] when the key is absent
    from the object, [Some v] when it is present. The four optional fields
    may be present with the value [undefined], hence the nested option. *)
Record DraftUpdates := mkUpdates {
  u_conflictId : option string;
  u_selectedTemporalId : option (option string);
  u_keepHistory : option (option bool);
  u_selectedCorrectId : option (option string);
  u_reasoning : option (option string);
  u_edits : option (gmap string ManualEdit)
}.

(** ** A small tree of rendered elements, for [simpleDiff] *)

Inductive Jsx :=
| JsxText (s : string)
| JsxElem (tag className : string) (children : list Jsx).

(** ** Utils (index.tsx, lines 126-143) *)

(** [/\s/] on the characters a [string] holds. *)
Definition isWhitespace (c : ascii) : bool :=
  match nat_of_ascii c with
  | 9 | 10 | 11 | 12 | 13 | 32 | 160 => true
  | _ => false
  end.

(** [s.split(/\s+/)]: [cur] is the token being read (reversed), [inRun]
    tells that the previous character was already part of a separator. *)
Fixpoint splitWs (s : string) (cur : list ascii) (inRun : bool) : list string :=
  match s with
  | EmptyString => [string_of_list_ascii (rev cur)]
  | String c rest =>
      if isWhitespace c
      then if inRun then splitWs rest cur true
           else string_of_list_ascii (rev cur) :: splitWs rest [] true
      else splitWs rest (c :: cur) false
  end.

Definition split_whitespace (s : string) : list string := splitWs s [] false.

Definition noChangeClass : string := "text-ink/60".
Definition diffWrapperClass : string := "font-serif leading-relaxed".
Definition deletionClass : string :=
  "bg-red-100 text-red-900 line-through decoration-red-900/50 mr-2 px-1 select-none opacity-60".
Definition insertionClass : string :=
  "bg-green-100 text-green-900 px-1 font-medium border-b-2 border-green-500".

Definition simpleDiff (oldText newText : string) : Jsx :=
  let oldWords := split_whitespace oldText in
  let newWords := split_whitespace newText in
  if String.eqb oldText newText
  then JsxElem "span" noChangeClass [JsxText "No changes detected."]
  else JsxElem "div" diffWrapperClass
         [ JsxElem "span" deletionClass [JsxText oldText];
           JsxElem "span" insertionClass [JsxText newText] ].

(** The text a rendered node shows. *)
Fixpoint textContent (j : Jsx) : string :=
  match j with
  | JsxText s => s
  | JsxElem _ _ kids =>
      (fix go (l : list Jsx) : string :=
         match l with
         | [] => ""
         | k :: l' => textContent k ++ go l'
         end) kids
  end.

(** The texts of the [span]s of class [cls] in a rendered tree, in document
    order. *)
Fixpoint spansOfClass (cls : string) (j : Jsx) : list string :=
  match j with
  | JsxText _ => []
  | JsxElem tag c kids =>
      ((if String.eqb tag "span" && String.eqb c cls
        then [textContent j] else [])
       ++ (fix go (l : list Jsx) : list string :=
             match l with
             | [] => []
             | k :: l' => spansOfClass cls k ++ go l'
             end) kids)%list
  end.

Definition deletionSpans (j : Jsx) : list string := spansOfClass deletionClass j.
Definition insertionSpans (j : Jsx) : list string := spansOfClass insertionClass j.

(** ** Mock registry (index.tsx, lines 147-186) *)

Definition mention (id docId docName : string) (page : Z)
    (section text : string) (date : option string) : Mention :=
  mkMention id docId docName page section text date None.

Definition C001 : Conflict :=
  mkConflict "C-001" TEMPORAL
    "Security Certification Evolution"
    "Multiple certification standards detected across RFP responses from different years."
    [ mention "m1" "d1" "2022_Healthcare_RFP.pdf" 12 "3. Security"
        "We are SOC 2 Type 1 certified" (Some "June 15, 2022");
      mention "m2" "d2" "2023_FinServ_RFP.docx" 8 "2. Compliance"
        "We are SOC 2 Type 2 certified" (Some "March 20, 2023");
      mention "m3" "d3" "2024_Enterprise_RFP.pdf" 15 "4. Certifications"
        "We are HITRUST certified" (Some "Jan 10, 2024") ]
    OPEN
    (Some "Mark HITRUST (2024) as current. Tag older versions as Historical.")
    None.

Definition C002 : Conflict :=
  mkConflict "C-002" CONTRADICTION
    "HIPAA Compliance Status"
    "Direct contradiction between RFP response and internal policy document regarding BAA readiness."
    [ mention "m4" "d3" "2024_Enterprise_RFP.pdf" 22 "5.1 Privacy"
        "We are HIPAA compliant and BAA-ready" None;
      mention "m5" "d4" "2024_Product_Specs.pdf" 4 "Roadmap"
        "HIPAA compliance certification pending Q2 2024" None ]
    OPEN
    (Some "Verify correct status with Compliance Officer.")
    None.

Definition C003 : Conflict :=
  mkConflict "C-003" INTRA_DOC
    "Service Pricing Inconsistency"
    "Conflicting pricing figures detected within the same Master Services Agreement."
    [ mention "m6" "d5" "Enterprise_Services_Agreement.pdf" 12 "4. Fees"
        "Monthly fee: $50,000 per month" None;
      mention "m7" "d5" "Enterprise_Services_Agreement.pdf" 34 "9. Premium Tier"
        "Customer will pay $45,000 monthly" None;
      mention "m8" "d5" "Enterprise_Services_Agreement.pdf" 67 "Appendix A"
        "Total monthly recurring: $52,000" None ]
    OPEN
    (Some "Edit document to ensure consistent pricing value.")
    None.

Definition MOCK_CONFLICTS : list Conflict := [C001; C002; C003].

(** ** Store (index.tsx, lines 190-322) *)

Definition initialState : StoreState :=
  mkStore V_login None [] [] None M_view None.

Definition login (username : string) (s : StoreState) : StoreState :=
  mkStore V_upload (Some username) [] [] None M_view None.

Definition logout (s : StoreState) : StoreState :=
  mkStore V_login None [] [] None M_view None.

Definition setView (v : ViewState) (s : StoreState) : StoreState :=
  mkStore v (currentUser s) (files s) (conflicts s) (selectedConflictId s)
    (workspaceMode s) (resolutionDraft s).

Definition setFiles (fs : list UploadFile) (s : StoreState) : StoreState :=
  mkStore (view s) (currentUser s) fs (conflicts s) (selectedConflictId s)
    (workspaceMode s) (resolutionDraft s).

Definition selectConflict (id : string) (s : StoreState) : StoreState :=
  mkStore (view s) (currentUser s) (files s) (conflicts s) (Some id)
    M_view None.

(** [MOCK_CONFLICTS[0].id]: the list above is not empty. *)
Definition loadMockData (s : StoreState) : StoreState :=
  mkStore (view s) (currentUser s) (files s) MOCK_CONFLICTS
    (c_id <$> head MOCK_CONFLICTS) (workspaceMode s) (resolutionDraft s).

(** [if (!state.selectedConflictId) return;] : [null] and the empty string
    are both falsy. *)
Definition startResolution (s : StoreState) : StoreState :=
  match selectedConflictId s with
  | None => s
  | Some "" => s
  | Some id =>
      mkStore (view s) (currentUser s) (files s) (conflicts s)
        (selectedConflictId s) M_resolve
        (Some (mkDraft id None None None None ∅))
  end.

Definition setMode (m : WorkspaceMode) (s : StoreState) : StoreState :=
  mkStore (view s) (currentUser s) (files s) (conflicts s)
    (selectedConflictId s) m (resolutionDraft s).

Definition cancelResolution (s : StoreState) : StoreState :=
  mkStore (view s) (currentUser s) (files s) (conflicts s)
    (selectedConflictId s) M_view None.

Definition goToPreview (s : StoreState) : StoreState := setMode M_preview s.
Definition returnToEdit (s : StoreState) : StoreState := setMode M_resolve s.
Definition submitResolution (s : StoreState) : StoreState := setMode M_verifying s.

(** [c.id === state.selectedConflictId]; no string is [=== null]. *)
Definition idMatches (sel : option string) (c : Conflict) : bool :=
  match sel with
  | Some id => String.eqb (c_id c) id
  | None => false
  end.

(** [{ ...c, status: 'RESOLVED', resolvedAt: now }] *)
Definition resolveConflict (now : string) (c : Conflict) : Conflict :=
  mkConflict (c_id c) (c_type c) (c_title c) (c_description c) (c_mentions c)
    RESOLVED (c_aiRecommendation c) (Some now).

(** The [conflicts.map(...)] of [finalizeResolution] (lines 249-253). *)
Definition markResolved (sel : option string) (now : string)
    (cs : list Conflict) : list Conflict :=
  (λ c, if idMatches sel c then resolveConflict now c else c) <$> cs.

Definition finalizeResolution (now : string) (s : StoreState) : StoreState :=
  mkStore (view s) (currentUser s) (files s)
    (markResolved (selectedConflictId s) now (conflicts s))
    (selectedConflictId s) M_resolved (resolutionDraft s).

Definition setAllCleared (s : StoreState) : StoreState :=
  mkStore (view s) (currentUser s) (files s) (conflicts s) None
    M_all_cleared (resolutionDraft s).

(** [{ text: m.text, action: 'UPDATE', isDirty: false }] *)
Definition editOf (m : Mention) : ManualEdit :=
  mkManualEdit (m_text m) UPDATE false.

(** One assignment [edits[m.id] = ...] on the object that started as [{}].
    The map holds the own properties of the object. The key ["__proto__"]
    is the accessor inherited from [Object.prototype]: assigning an object
    to it sets the prototype of [edits] and adds no own property; any other
    key becomes (or overwrites) an own property. *)
Definition assignEdit (acc : gmap string ManualEdit) (m : Mention)
    : gmap string ManualEdit :=
  if String.eqb (m_id m) "__proto__" then acc
  else <[m_id m := editOf m]> acc.

(** The [forEach] of [initManualDraft]: one assignment per mention, in list
    order (a later mention with the same id wins). *)
Definition initialEdits (ms : list Mention) : gmap string ManualEdit :=
  foldl assignEdit ∅ ms.

Definition initManualDraft (conflict : Conflict) (s : StoreState) : StoreState :=
  mkStore (view s) (currentUser s) (files s) (conflicts s)
    (selectedConflictId s) M_resolve
    (Some (mkDraft (c_id conflict) None None None None
             (initialEdits (c_mentions conflict)))).

(** [{ ...draft, ...updates }] *)
Definition mergeDraft (d : ResolutionDraft) (u : DraftUpdates) : ResolutionDraft :=
  mkDraft (default (conflictId d) (u_conflictId u))
    (default (selectedTemporalId d) (u_selectedTemporalId u))
    (default (keepHistory d) (u_keepHistory u))
    (default (selectedCorrectId d) (u_selectedCorrectId u))
    (default (reasoning d) (u_reasoning u))
    (default (edits d) (u_edits u)).

Definition updateDraft (updates : DraftUpdates) (s : StoreState) : StoreState :=
  mkStore (view s) (currentUser s) (files s) (conflicts s)
    (selectedConflictId s) (workspaceMode s)
    (match resolutionDraft s with
     | Some d => Some (mergeDraft d updates)
     | None => None
     end).

(** [state.conflicts.find(c => c.id === state.selectedConflictId)] *)
Definition selectedConflict (s : StoreState) : option Conflict :=
  find (idMatches (selectedConflictId s)) (conflicts s).

(** [...?.mentions.find(m => m.id === mentionId)] *)
Definition originalMention (s : StoreState) (mentionId : string) : option Mention :=
  match selectedConflict s with
  | Some c => find (λ m, String.eqb (m_id m) mentionId) (c_mentions c)
  | None => None
  end.

Definition updateManualEdit (mentionId text' : string) (action' : ManualAction)
    (s : StoreState) : StoreState :=
  match resolutionDraft s with
  | None => s
  | Some d =>
      let dirty :=
        match originalMention s mentionId with
        | Some m => negb (String.eqb text' (m_text m))
        | None => true
        end in
      mkStore (view s) (currentUser s) (files s) (conflicts s)
        (selectedConflictId s) (workspaceMode s)
        (Some (mkDraft (conflictId d) (selectedTemporalId d) (keepHistory d)
                 (selectedCorrectId d) (reasoning d)
                 (<[mentionId := mkManualEdit text' action' dirty]> (edits d))))
  end.

(** [downloadExport] reads the store and writes a file through the DOM; it
    calls [set] nowhere. *)
Definition downloadExport (s : StoreState) : StoreState := s.

(** The actions of [StoreState], as data. *)
Inductive Action :=
| Login (username : string)
| Logout
| SetView (v : ViewState)
| SetFiles (fs : list UploadFile)
| SelectConflict (id : string)
| LoadMockData
| StartResolution
| CancelResolution
| GoToPreview
| ReturnToEdit
| SubmitResolution
| FinalizeResolution (now : string)
| SetAllCleared
| UpdateDraft (updates : DraftUpdates)
| UpdateManualEdit (mentionId text' : string) (action' : ManualAction)
| InitManualDraft (conflict : Conflict)
| DownloadExport.

Definition step (a : Action) (s : StoreState) : StoreState :=
  match a with
  | Login u => login u s
  | Logout => logout s
  | SetView v => setView v s
  | SetFiles fs => setFiles fs s
  | SelectConflict id => selectConflict id s
  | LoadMockData => loadMockData s
  | StartResolution => startResolution s
  | CancelResolution => cancelResolution s
  | GoToPreview => goToPreview s
  | ReturnToEdit => returnToEdit s
  | SubmitResolution => submitResolution s
  | FinalizeResolution now => finalizeResolution now s
  | SetAllCleared => setAllCleared s
  | UpdateDraft u => updateDraft u s
  | UpdateManualEdit mid t a => updateManualEdit mid t a s
  | InitManualDraft c => initManualDraft c s
  | DownloadExport => downloadExport s
  end.

(** A sequence of actions, applied left to right. *)
Definition run (acts : list Action) (s : StoreState) : StoreState :=
  foldl (λ st a, step a st) s acts.

(** ** Components: what is shown and what a click does *)

(** [ConflictWorkspace] (lines 1185-1204): which screen the workspace
    renders. *)
Inductive Screen :=
| AllClearView
| SelectPrompt
| VerificationView
| ResolvedView (conflict : Conflict)
| WorkspaceView (conflict : Conflict).

Definition ConflictWorkspace (s : StoreState) : Screen :=
  match workspaceMode s with
  | M_all_cleared => AllClearView
  | m =>
      match selectedConflict s with
      | None => SelectPrompt
      | Some c =>
          match m with
          | M_verifying => VerificationView
          | M_resolved => ResolvedView c
          | _ => WorkspaceView c
          end
      end
  end.

(** The action footer of [ConflictWorkspace] (lines 1302-1380). The
    "Previous" and "Next" buttons of the view mode carry no handler. *)
Inductive FooterButton :=
| EditManually | QuickResolve | PickCorrect | EditToFix
| Cancel | PreviewChanges | BackToEdit | ConfirmVerify.

#[global] Instance FooterButton_eq_dec : EqDecision FooterButton.
Proof. solve_decision. Defined.

Definition footerButtons (c : Conflict) (m : WorkspaceMode) : list FooterButton :=
  match c_status c with
  | RESOLVED => []
  | OPEN =>
      match m with
      | M_view =>
          match c_type c with
          | TEMPORAL => [EditManually; QuickResolve]
          | CONTRADICTION => [EditManually; PickCorrect]
          | INTRA_DOC => [EditToFix]
          end
      | M_resolve => [Cancel; PreviewChanges]
      | M_preview => [BackToEdit; ConfirmVerify]
      | _ => []
      end
  end.

Definition onClick (b : FooterButton) (c : Conflict) : StoreState → StoreState :=
  match b with
  | EditManually | EditToFix => initManualDraft c
  | QuickResolve | PickCorrect => startResolution
  | Cancel => cancelResolution
  | PreviewChanges => goToPreview
  | BackToEdit => returnToEdit
  | ConfirmVerify => submitResolution
  end.

(** A click on a footer button: it reaches the store when the button is
    rendered, and nothing happens otherwise. *)
Definition clickFooter (b : FooterButton) (s : StoreState) : StoreState :=
  match ConflictWorkspace s with
  | WorkspaceView c =>
      if bool_decide (b ∈ footerButtons c (workspaceMode s))
      then onClick b c s else s
  | _ => s
  end.

(** [Sidebar], the [onClick] of a row (line 613). *)
Definition Sidebar_onClick (conflict : Conflict) (s : StoreState) : StoreState :=
  selectConflict (c_id conflict) s.

(** [ResolvedView] (lines 1104-1114). *)
Definition nextConflict (conflict : Conflict) (s : StoreState) : option Conflict :=
  find (λ c, bool_decide (c_status c = OPEN)
             && negb (String.eqb (c_id c) (c_id conflict)))
    (conflicts s).

Definition handleNext (conflict : Conflict) (s : StoreState) : StoreState :=
  match nextConflict conflict s with
  | Some n => selectConflict (c_id n) s
  | None => setAllCleared s
  end.

(** A click on the button of the resolved screen. *)
Definition advance (s : StoreState) : StoreState :=
  match ConflictWorkspace s with
  | ResolvedView c => handleNext c s
  | _ => s
  end.

(** [resolutionDraft?.reasoning?.length || 0] and the colour of the
    "n / 20 MIN CHARS" counter of [ContradictionResolutionForm]
    (lines 829-831). *)
Definition reasoningLength (d : option ResolutionDraft) : nat :=
  match d with
  | Some d' => match reasoning d' with Some r => String.length r | None => 0 end
  | None => 0
  end.

Definition reasoningCounterRed (d : option ResolutionDraft) : bool :=
  (reasoningLength d <? 20)%nat.

(** [draft?.text.length || 0] and the colour of the "n/1000" counter of
    [ManualEditorForm] (lines 878, 922-924). *)
Definition charCount (e : option ManualEdit) : nat :=
  match e with
  | Some e' => String.length (text e')
  | None => 0
  end.

Definition charCounterRed (e : option ManualEdit) : bool :=
  (900 <? charCount e)%nat.

(** [Object.values(edits).some(e => e.isDirty)] of [PreviewPanel]
    (line 1020). *)
Definition hasDirtyEdit (es : gmap string ManualEdit) : bool :=
  existsb (λ kv, isDirty kv.2) (map_to_list es).

(** ** The wording of the specification, for comparison with the code *)

(** The validation gate of section 4.3 of the specification, word for
    word: TEMPORAL needs [selectedTemporalId] set; CONTRADICTION needs
    [selectedCorrectId] set and [reasoning.length >= 20]; INTRA_DOC needs
    at least one dirty edit. *)
Definition previewGate_spec (c : Conflict) (d : ResolutionDraft) : bool :=
  match c_type c with
  | TEMPORAL => bool_decide (selectedTemporalId d ≠ None)
  | CONTRADICTION =>
      bool_decide (selectedCorrectId d ≠ None)
      && (20 <=? match reasoning d with
                 | Some r => String.length r
                 | None => 0
                 end)%nat
  | INTRA_DOC => hasDirtyEdit (edits d)
  end.

(** ** Invariants and classes of actions used in the statements *)

(** [resolvedAt] is present exactly when the status is RESOLVED. *)
Definition conflict_ok (c : Conflict) : Prop :=
  is_Some (c_resolvedAt c) ↔ c_status c = RESOLVED.

(** Every edit of the draft carries the right [isDirty]: under an id found
    among the mentions of the selected conflict, dirty exactly when the
    text differs from the text of that mention; under any other id,
    dirty. *)
Definition dirty_inv (s : StoreState) : Prop :=
  match resolutionDraft s with
  | None => True
  | Some d =>
      ∀ mentionId e, edits d !! mentionId = Some e →
        match originalMention s mentionId with
        | Some m => isDirty e = true ↔ text e ≠ m_text m
        | None => isDirty e = true
        end
  end.

(** The two operations of the manual editor, for the conflict [c]. *)
Definition isManualOp (c : Conflict) (a : Action) : Prop :=
  a = InitManualDraft c ∨ ∃ mid t x, a = UpdateManualEdit mid t x.

(** The nine operations that are not the finalize step. *)
Definition isDraftOp (a : Action) : bool :=
  match a with
  | SelectConflict _ | StartResolution | CancelResolution | GoToPreview
  | ReturnToEdit | SubmitResolution | UpdateDraft _ | UpdateManualEdit _ _ _
  | InitManualDraft _ => true
  | _ => false
  end.

(** Every text of a draft has at most [n] characters. *)
Definition texts_le (n : nat) (s : StoreState) : Prop :=
  match resolutionDraft s with
  | None => True
  | Some d => ∀ mid e, edits d !! mid = Some e → (String.length (text e) ≤ n)%nat
  end.

(** One call of [updateManualEdit]: mention id, text, action. *)
Definition EditCall : Type := string * string * ManualAction.

Definition callAction (c : EditCall) : Action :=
  UpdateManualEdit c.1.1 c.1.2 c.2.

(** ** Scenarios *)

Definition setReasoning (r : string) : DraftUpdates :=
  mkUpdates None None None None (Some (Some r)) None.
Definition setSelectedCorrectId (id : string) : DraftUpdates :=
  mkUpdates None None None (Some (Some id)) None None.
Definition setSelectedTemporalId (id : string) : DraftUpdates :=
  mkUpdates None (Some (Some id)) None None None None.

Definition t1 : string := "2024-05-01T10:00:00.000Z".
Definition t2 : string := "2024-05-02T10:00:00.000Z".

(** The mock registry loaded, its first conflict selected. *)
Definition loaded : StoreState := run [LoadMockData] initialState.

(** C-002 (a contradiction) being resolved with the reasoning "ok". *)
Definition contradiction_ok : StoreState :=
  run [ SelectConflict "C-002"; StartResolution;
        UpdateDraft (setReasoning "ok") ] loaded.

(** The same with a real mention picked and a reasoning of 30 characters. *)
Definition contradiction_good : StoreState :=
  run [ SelectConflict "C-002"; StartResolution;
        UpdateDraft (setSelectedCorrectId "m4");
        UpdateDraft (setReasoning "Confirmed via compliance audit") ] loaded.

(** C-001 submitted: the verification is running. *)
Definition verifying_C001 : StoreState :=
  run [ StartResolution; UpdateDraft (setSelectedTemporalId "m3");
        GoToPreview; SubmitResolution ] loaded.

(** C-001 finalized at [t1]. *)
Definition resolved_C001 : StoreState :=
  run [ FinalizeResolution t1 ] verifying_C001.

(** A text of 1001 characters. *)
Definition longText : string := string_of_list_ascii (repeat "a"%char 1001).

(** The mock registry loaded, C-003 selected. *)
Definition editing_C003 : StoreState :=
  run [ SelectConflict "C-003" ] loaded.

(** ** More of the components *)

(** [c.toLowerCase()] on one code unit below 256: the letters A-Z and the
    capital letters of Latin-1 (U+00C0 to U+00DE, the sign U+00D7 apart)
    move up by 32. *)
Definition toLowerChar (c : ascii) : ascii :=
  let n := nat_of_ascii c in
  if ((65 <=? n) && (n <=? 90)
      || (192 <=? n) && (n <=? 222) && negb (n =? 215))%nat
  then ascii_of_nat (n + 32) else c.

Fixpoint toLowerCase (s : string) : string :=
  match s with
  | EmptyString => EmptyString
  | String c rest => String (toLowerChar c) (toLowerCase rest)
  end.

(** [s.includes(sub)] *)
Fixpoint includes (s sub : string) : bool :=
  String.prefix sub s
  || match s with
     | EmptyString => false
     | String _ rest => includes rest sub
     end.

(** [Sidebar] (lines 549-563): the rows listed for a search term and the
    "pending only" switch, and the number shown as pending. *)
Definition matchesSearch (searchTerm : string) (c : Conflict) : bool :=
  includes (toLowerCase (c_title c)) (toLowerCase searchTerm)
  || includes (toLowerCase (c_id c)) (toLowerCase searchTerm).

Definition matchesFilter (showPendingOnly : bool) (c : Conflict) : bool :=
  if showPendingOnly then bool_decide (c_status c = OPEN) else true.

Definition filteredConflicts (searchTerm : string) (showPendingOnly : bool)
    (s : StoreState) : list Conflict :=
  List.filter (λ c, matchesSearch searchTerm c && matchesFilter showPendingOnly c)
    (conflicts s).

Definition pendingCount (s : StoreState) : nat :=
  length (List.filter (λ c, bool_decide (c_status c = OPEN)) (conflicts s)).

(** [TopBar] (line 366): the condition that enables the Export button. *)
Definition allResolved (s : StoreState) : bool :=
  (0 <? length (conflicts s))%nat
  && forallb (λ c, bool_decide (c_status c = RESOLVED)) (conflicts s).

(** The object [downloadExport] serializes (lines 297-311). *)
Record AuditEntry := mkAuditEntry {
  a_id : string;
  a_title : string;
  a_status : ResolutionStatus;
  a_resolvedAt : option string;
  a_type : ConflictType
}.

Record ExportData := mkExportData {
  generatedAt : string;
  user : option string;
  totalConflicts : nat;
  resolved : nat;
  auditLog : list AuditEntry
}.

Definition exportData (now : string) (s : StoreState) : ExportData :=
  mkExportData now (currentUser s)
    (length (conflicts s))
    (length (List.filter (λ c, bool_decide (c_status c = RESOLVED)) (conflicts s)))
    ((λ c, mkAuditEntry (c_id c) (c_title c) (c_status c) (c_resolvedAt c)
             (c_type c)) <$> conflicts s).

(** [ManualEditorForm] (lines 839-953). [draftEdit] is
    [resolutionDraft?.edits?.[mention.id]]. *)
Definition draftEdit (s : StoreState) (m : Mention) : option ManualEdit :=
  match resolutionDraft s with
  | Some d => edits d !! m_id m
  | None => None
  end.

(** [draft?.text || mention.text]: the empty string is falsy. *)
Definition textareaValue (s : StoreState) (m : Mention) : string :=
  match draftEdit s m with
  | Some e => if String.eqb (text e) "" then m_text m else text e
  | None => m_text m
  end.

(** [draft?.action || 'UPDATE']: the four tags are non-empty strings. *)
Definition currentAction (s : StoreState) (m : Mention) : ManualAction :=
  match draftEdit s m with
  | Some e => action e
  | None => UPDATE
  end.

(** The "Reset" button, the textarea and the action radios. *)
Definition onReset (m : Mention) (s : StoreState) : StoreState :=
  updateManualEdit (m_id m) (m_text m) UPDATE s.

Definition onTextChange (m : Mention) (value : string) (s : StoreState) : StoreState :=
  updateManualEdit (m_id m) value (currentAction s m) s.

Definition onActionChange (m : Mention) (a : ManualAction) (s : StoreState) : StoreState :=
  updateManualEdit (m_id m) (textareaValue s m) a s.

(** [Object.keys(resolutionDraft?.edits || {}).length], shown as
    "n Changes Tracked". *)
Definition changesTracked (s : StoreState) : nat :=
  match resolutionDraft s with
  | Some d => size (edits d)
  | None => 0
  end.

(** The names every object literal inherits from [Object.prototype]:
    reading [acc[k]] for one of them on the fresh object [{}] yields the
    inherited value, which is truthy and has no [push]. *)
Definition objectPrototypeKeys : list string :=
  [ "constructor"; "__defineGetter__"; "__defineSetter__"; "hasOwnProperty";
    "__lookupGetter__"; "__lookupSetter__"; "isPrototypeOf";
    "propertyIsEnumerable"; "toString"; "valueOf"; "__proto__";
    "toLocaleString" ].

(** One round of the [reduce] of [mentionsByDoc] (lines 843-847):
    [if (!acc[docId]) acc[docId] = []; acc[docId].push(mention)]. [None] is
    the TypeError raised by [push] on an inherited value. *)
Definition groupStep (acc : option (gmap string (list Mention))) (m : Mention)
    : option (gmap string (list Mention)) :=
  match acc with
  | None => None
  | Some g =>
      if bool_decide (m_docId m ∈ objectPrototypeKeys) then None
      else Some (<[m_docId m := (default [] (g !! m_docId m) ++ [m])%list]> g)
  end.

Definition mentionsByDoc (ms : list Mention) : option (gmap string (list Mention)) :=
  foldl groupStep (Some ∅) ms.

(** [PreviewPanel] (lines 1020-1047): whether the "Text Modifications" box
    is rendered, and the diffs it holds, one per dirty edit whose id is the
    id of a mention of the conflict ([None] for an edit that is skipped).
    The order of [Object.entries] is not modelled. *)
Definition showsTextModifications (c : Conflict) (d : option ResolutionDraft) : bool :=
  (bool_decide (c_type c = INTRA_DOC)
   || match d with Some _ => true | None => false end)
  && hasDirtyEdit (match d with Some d' => edits d' | None => ∅ end).

Definition previewDiffs (c : Conflict) (d : option ResolutionDraft)
    : list (string * option Jsx) :=
  (λ kv : string * ManualEdit,
     (kv.1,
      match find (λ m, String.eqb (m_id m) kv.1) (c_mentions c) with
      | Some m => Some (simpleDiff (m_text m) (text kv.2))
      | None => None
      end))
  <$> List.filter (λ kv : string * ManualEdit, isDirty kv.2)
        (map_to_list (match d with Some d' => edits d' | None => ∅ end)).

(** [AnalyzingScreen] (lines 1489-1512): the state the interval callback
    works on. [running] is false once [clearInterval] was called;
    [completions] counts the calls of [setTimeout(onComplete, 500)]. *)
Record Analyzing := mkAnalyzing {
  progress : nat;
  stage : string;
  running : bool;
  completions : nat
}.

Definition analyzingStart : Analyzing :=
  mkAnalyzing 0 "Parsing Metadata..." true 0.

Definition nextStage (prev : nat) (st : string) : string :=
  let st1 := if ((20 <? prev) && (prev <? 40))%nat
             then "Structuring Knowledge Graph..." else st in
  let st2 := if ((40 <? prev) && (prev <? 70))%nat
             then "Detecting Semantic Conflicts..." else st1 in
  let st3 := if (70 <? prev)%nat
             then "Classifying Temporal Patterns..." else st2 in
  if (90 <? prev)%nat then "Finalizing Registry..." else st3.

(** One firing of the interval. *)
Definition tick (a : Analyzing) : Analyzing :=
  if running a then
    if (100 <=? progress a)%nat
    then mkAnalyzing 100 (stage a) false (S (completions a))
    else mkAnalyzing (progress a + 1) (nextStage (progress a) (stage a))
           true (completions a)
  else a.

Definition ticks (n : nat) (a : Analyzing) : Analyzing := Nat.iter n tick a.

(** ** Further classes of actions and relations used in the statements *)

(** The actions that do not replace the registry. *)
Definition keepsRegistry (a : Action) : bool :=
  match a with
  | Login _ | Logout | LoadMockData => false
  | _ => true
  end.

(** [c'] is [c] at a later time: same identity, same mentions, and a
    status that did not go back from RESOLVED. *)
Definition evolves (c c' : Conflict) : Prop :=
  c_id c' = c_id c ∧ c_type c' = c_type c ∧ c_title c' = c_title c
  ∧ c_description c' = c_description c ∧ c_mentions c' = c_mentions c
  ∧ c_aiRecommendation c' = c_aiRecommendation c
  ∧ (c_status c = RESOLVED → c_status c' = RESOLVED).

(** No key is present in both partial drafts. *)
Definition disjointKeys (u1 u2 : DraftUpdates) : bool :=
  negb (bool_decide (is_Some (u_conflictId u1)) && bool_decide (is_Some (u_conflictId u2)))
  && negb (bool_decide (is_Some (u_selectedTemporalId u1))
           && bool_decide (is_Some (u_selectedTemporalId u2)))
  && negb (bool_decide (is_Some (u_keepHistory u1))
           && bool_decide (is_Some (u_keepHistory u2)))
  && negb (bool_decide (is_Some (u_selectedCorrectId u1))
           && bool_decide (is_Some (u_selectedCorrectId u2)))
  && negb (bool_decide (is_Some (u_reasoning u1))
           && bool_decide (is_Some (u_reasoning u2)))
  && negb (bool_decide (is_Some (u_edits u1)) && bool_decide (is_Some (u_edits u2))).

(** The label shown after [n] firings of the interval. *)
Definition stageAfter (n : nat) : string :=
  if (n <=? 21)%nat then "Parsing Metadata..."
  else if (n <=? 41)%nat then "Structuring Knowledge Graph..."
  else if (n <=? 71)%nat then "Detecting Semantic Conflicts..."
  else if (n <=? 91)%nat then "Classifying Temporal Patterns..."
  else "Finalizing Registry...".

(** The first mention of C-003. *)
Definition m6 : Mention :=
  mention "m6" "d5" "Enterprise_Services_Agreement.pdf" 12 "4. Fees"
    "Monthly fee: $50,000 per month" None.

(** * Properties *)

(** ** Diff engine *)

Lemma append_empty_r (s : string) : s ++ "" = s.
Proof.
  induction s as [|c s IH]; [reflexivity |].
  change (String c (s ++ "") = String c s). by rewrite IH.
Qed.

Example split_whitespace_words :
  split_whitespace "Monthly fee:  $50,000 per month"
  = ["Monthly"; "fee:"; "$50,000"; "per"; "month"].
Proof. reflexivity. Qed.

Example split_whitespace_edges :
  split_whitespace "" = [""] ∧ split_whitespace " a " = [""; "a"; ""].
Proof. split; reflexivity. Qed.

Lemma simpleDiff_same (x : string) :
  simpleDiff x x = JsxElem "span" noChangeClass [JsxText "No changes detected."].
Proof. unfold simpleDiff. by rewrite String.eqb_refl. Qed.

Lemma simpleDiff_other (x y : string) :
  x ≠ y →
  simpleDiff x y
  = JsxElem "div" diffWrapperClass
      [ JsxElem "span" deletionClass [JsxText x];
        JsxElem "span" insertionClass [JsxText y] ].
Proof.
  intros Hne. unfold simpleDiff.
  destruct (String.eqb_spec x y) as [Heq | _]; [by destruct Hne | reflexivity].
Qed.

Lemma spans_of_replacement (x y : string) :
  let j := JsxElem "div" diffWrapperClass
             [ JsxElem "span" deletionClass [JsxText x];
               JsxElem "span" insertionClass [JsxText y] ] in
  deletionSpans j = [x] ∧ insertionSpans j = [y].
Proof.
  cbv zeta. unfold deletionSpans, insertionSpans.
  split; cbn; by rewrite append_empty_r.
Qed.

(** C6. [simpleDiff x x] is the neutral "No changes detected." element,
    with no deleted and no inserted span; for [x ≠ y], [simpleDiff x y]
    holds exactly one deleted span, the whole of [x], and exactly one
    inserted span, the whole of [y]. *)
Theorem simpleDiff_coarse (x y : string) :
  (simpleDiff x x = JsxElem "span" noChangeClass [JsxText "No changes detected."]
   ∧ deletionSpans (simpleDiff x x) = []
   ∧ insertionSpans (simpleDiff x x) = [])
  ∧ (x ≠ y →
     deletionSpans (simpleDiff x y) = [x]
     ∧ insertionSpans (simpleDiff x y) = [y]).
Proof.
  split.
  - rewrite simpleDiff_same. by repeat split.
  - intros Hne. rewrite (simpleDiff_other _ _ Hne). apply spans_of_replacement.
Qed.

Lemma simpleDiff_coarse_witness :
  deletionSpans (simpleDiff "Monthly fee: $50,000 per month"
                            "Monthly fee: $52,000 per month")
  = ["Monthly fee: $50,000 per month"]
  ∧ insertionSpans (simpleDiff "Monthly fee: $50,000 per month"
                               "Monthly fee: $52,000 per month")
    = ["Monthly fee: $52,000 per month"].
Proof.
  apply (simpleDiff_coarse "Monthly fee: $50,000 per month"
                           "Monthly fee: $52,000 per month").
  discriminate.
Defined.

(** ** The registry under [finalizeResolution] *)

Lemma idMatches_true (sel : option string) (c : Conflict) :
  idMatches sel c = true ↔ sel = Some (c_id c).
Proof.
  destruct sel as [id|]; simpl.
  - rewrite String.eqb_eq. split; [by intros -> | by intros [= ->]].
  - split; discriminate.
Qed.

Lemma idMatches_false (sel : option string) (c : Conflict) :
  idMatches sel c = false ↔ sel ≠ Some (c_id c).
Proof.
  rewrite <- idMatches_true. destruct (idMatches sel c); split; done.
Qed.

Lemma markResolved_lookup sel now cs (i : nat) (c : Conflict) :
  cs !! i = Some c →
  markResolved sel now cs !! i
  = Some (if idMatches sel c then resolveConflict now c else c).
Proof. intros Hi. unfold markResolved. by rewrite list_lookup_fmap, Hi. Qed.

Lemma markResolved_length sel now (cs : list Conflict) :
  length (markResolved sel now cs) = length cs.
Proof. unfold markResolved. apply length_fmap. Qed.

Lemma markResolved_unknown sel now (cs : list Conflict) :
  (∀ c, c ∈ cs → sel ≠ Some (c_id c)) → markResolved sel now cs = cs.
Proof.
  intros Hno. unfold markResolved.
  induction cs as [|c cs IH]; [reflexivity |].
  rewrite fmap_cons.
  assert (idMatches sel c = false) as ->.
  { apply idMatches_false, Hno. by left. }
  f_equal. apply IH. intros c' Hc'. apply Hno. by right.
Qed.

Lemma markResolved_null now (cs : list Conflict) : markResolved None now cs = cs.
Proof. apply markResolved_unknown. intros; discriminate. Qed.

(** ** Selecting a conflict *)

(** C2 (as the code has it). In every state, whatever its mode
    (verifying too), [selectConflict id] sets the selected conflict to
    [id], resets the mode to view and drops the draft; the registry and the
    rest of the store are untouched, and a click on a sidebar row is that
    call with no test of the mode. *)
Theorem selectConflict_resets (id : string) (s : StoreState) :
  selectedConflictId (selectConflict id s) = Some id
  ∧ workspaceMode (selectConflict id s) = M_view
  ∧ resolutionDraft (selectConflict id s) = None
  ∧ conflicts (selectConflict id s) = conflicts s
  ∧ (∀ c, Sidebar_onClick c s = selectConflict (c_id c) s).
Proof. by repeat split. Qed.

(** C2, refuted as stated: while C-001 is being verified, selecting C-002
    is not refused; it changes the store, puts the mode back to view and
    drops the draft. *)
Lemma selectConflict_while_verifying :
  workspaceMode verifying_C001 = M_verifying
  ∧ selectConflict "C-002" verifying_C001 ≠ verifying_C001
  ∧ workspaceMode (selectConflict "C-002" verifying_C001) = M_view
  ∧ selectedConflictId (selectConflict "C-002" verifying_C001) = Some "C-002"
  ∧ is_Some (resolutionDraft verifying_C001)
  ∧ resolutionDraft (selectConflict "C-002" verifying_C001) = None.
Proof.
  repeat split; try reflexivity.
  - intros H. apply (f_equal workspaceMode) in H. discriminate H.
  - vm_compute. eauto.
Qed.

(** ** Finalizing *)

(** C3 (as the code has it). [finalizeResolution] at time [now] turns the
    conflict whose id is the selected one into a RESOLVED conflict stamped
    [now], whether it was OPEN or already RESOLVED (an earlier stamp is
    overwritten); every other conflict is kept; when no conflict has the
    selected id the registry is unchanged. *)
Theorem finalize_marks_selected (now : string) (s : StoreState)
    (i : nat) (c : Conflict) :
  conflicts s !! i = Some c →
  (selectedConflictId s = Some (c_id c) →
     conflicts (finalizeResolution now s) !! i = Some (resolveConflict now c)
     ∧ c_status (resolveConflict now c) = RESOLVED
     ∧ c_resolvedAt (resolveConflict now c) = Some now
     ∧ c_id (resolveConflict now c) = c_id c
     ∧ c_mentions (resolveConflict now c) = c_mentions c)
  ∧ (selectedConflictId s ≠ Some (c_id c) →
     conflicts (finalizeResolution now s) !! i = Some c)
  ∧ ((∀ c', c' ∈ conflicts s → selectedConflictId s ≠ Some (c_id c')) →
     conflicts (finalizeResolution now s) = conflicts s).
Proof.
  intros Hi. simpl. repeat split.
  - rewrite (markResolved_lookup _ _ _ _ _ Hi).
    by apply idMatches_true in H as ->.
  - intros Hne. rewrite (markResolved_lookup _ _ _ _ _ Hi).
    by apply idMatches_false in Hne as ->.
  - apply markResolved_unknown.
Qed.

Lemma finalize_marks_selected_witness :
  conflicts (finalizeResolution t1 verifying_C001) !! 0
  = Some (resolveConflict t1 C001)
  ∧ conflicts (finalizeResolution t1 verifying_C001) !! 1 = Some C002.
Proof.
  split.
  - by apply (finalize_marks_selected t1 verifying_C001 0 C001).
  - by apply (finalize_marks_selected t1 verifying_C001 1 C002).
Defined.

(** C3, refuted as stated: C-001 was finalized at [t1]; a second finalize
    at [t2] is not a no-op, it replaces the stamp [t1] by [t2]. *)
Lemma finalize_twice_restamps :
  selectedConflictId resolved_C001 = Some "C-001"
  ∧ (c_status <$> conflicts resolved_C001 !! 0) = Some RESOLVED
  ∧ (c_resolvedAt <$> conflicts resolved_C001 !! 0) = Some (Some t1)
  ∧ (c_resolvedAt <$> conflicts (finalizeResolution t2 resolved_C001) !! 0)
    = Some (Some t2)
  ∧ conflicts (finalizeResolution t2 resolved_C001) ≠ conflicts resolved_C001.
Proof.
  repeat split; try reflexivity.
  intros H. apply (f_equal (λ l, c_resolvedAt <$> l !! 0)) in H.
  vm_compute in H. discriminate H.
Qed.

Lemma find_unmatched (sel : option string) (cs : list Conflict) :
  (∀ c, c ∈ cs → sel ≠ Some (c_id c)) → find (idMatches sel) cs = None.
Proof.
  intros Hno. induction cs as [|c cs IH]; [reflexivity |]. simpl.
  assert (idMatches sel c = false) as ->.
  { apply idMatches_false, Hno. by left. }
  apply IH. intros c' Hc'. apply Hno. by right.
Qed.

(** C10. When the selected reference is null, or is the id of no conflict
    of the registry, [finalizeResolution] still sets the mode to resolved
    and returns the registry as it was: every status and every
    [resolvedAt] is the one before the call. With no conflict selected the
    workspace renders the prompt to select one; but the mode stays resolved
    when the mock registry is loaded afterwards, and the workspace then
    renders the resolved screen of C-001 while every conflict of the
    registry is OPEN and has no [resolvedAt]: the resolved display is
    reached without any conflict marked RESOLVED. *)
Theorem finalize_without_target (now : string) (s : StoreState) :
  (selectedConflictId s = None
   ∨ (∀ c, c ∈ conflicts s → selectedConflictId s ≠ Some (c_id c)) →
   workspaceMode (finalizeResolution now s) = M_resolved
   ∧ conflicts (finalizeResolution now s) = conflicts s
   ∧ ConflictWorkspace (finalizeResolution now s) = SelectPrompt)
  ∧ (workspaceMode (run [FinalizeResolution now; LoadMockData] initialState)
     = M_resolved
     ∧ ConflictWorkspace (run [FinalizeResolution now; LoadMockData] initialState)
       = ResolvedView C001
     ∧ Forall (λ c, c_status c = OPEN ∧ c_resolvedAt c = None)
         (conflicts (run [FinalizeResolution now; LoadMockData] initialState))).
Proof.
  split; [| split; [reflexivity | split; [reflexivity | by repeat constructor]]].
  intros Hsel.
  assert (Hno : ∀ c, c ∈ conflicts s → selectedConflictId s ≠ Some (c_id c)).
  { destruct Hsel as [-> | Hno]; [discriminate | exact Hno]. }
  assert (Hsame : markResolved (selectedConflictId s) now (conflicts s)
                  = conflicts s) by (by apply markResolved_unknown).
  split; [reflexivity |]. split; [exact Hsame |].
  unfold ConflictWorkspace, selectedConflict. simpl. rewrite Hsame.
  by rewrite (find_unmatched _ _ Hno).
Qed.

Lemma finalize_without_target_witness :
  (workspaceMode (finalizeResolution t1 (selectConflict "C-999" loaded))
   = M_resolved
   ∧ conflicts (finalizeResolution t1 (selectConflict "C-999" loaded))
     = [C001; C002; C003]
   ∧ ConflictWorkspace (finalizeResolution t1 (selectConflict "C-999" loaded))
     = SelectPrompt)
  ∧ (workspaceMode (finalizeResolution t1 (setAllCleared loaded)) = M_resolved
     ∧ conflicts (finalizeResolution t1 (setAllCleared loaded))
       = [C001; C002; C003]
     ∧ ConflictWorkspace (finalizeResolution t1 (setAllCleared loaded))
       = SelectPrompt).
Proof.
  split.
  - apply (finalize_without_target t1 (selectConflict "C-999" loaded)).
    right. apply Forall_forall.
    repeat (constructor; [discriminate |]). constructor.
  - apply (finalize_without_target t1 (setAllCleared loaded)). by left.
Defined.

(** A stale selection on the loaded registry: the mode becomes resolved and
    the three conflicts are still OPEN, none of them stamped. *)
Example finalize_stale_selection :
  let s := finalizeResolution t1 (selectConflict "C-999" loaded) in
  workspaceMode s = M_resolved
  ∧ c_status <$> conflicts s = [OPEN; OPEN; OPEN]
  ∧ c_resolvedAt <$> conflicts s = [None; None; None].
Proof. by repeat split. Qed.

(** Finalize fired on the empty registry, the mock data loaded afterwards:
    the workspace renders the resolved screen for C-001 although no
    conflict is RESOLVED. *)
Example resolved_screen_without_resolution :
  let s := run [FinalizeResolution t1; LoadMockData] initialState in
  ConflictWorkspace s = ResolvedView C001
  ∧ c_status <$> conflicts s = [OPEN; OPEN; OPEN].
Proof. by split. Qed.

(** ** Who writes the registry *)

Lemma step_draftOp_conflicts (a : Action) (s : StoreState) :
  isDraftOp a = true → conflicts (step a s) = conflicts s.
Proof.
  destruct a; simpl; try discriminate; intros _; try reflexivity.
  - unfold startResolution.
    destruct (selectedConflictId s) as [[|? ?]|]; reflexivity.
  - unfold updateManualEdit. destruct (resolutionDraft s); reflexivity.
Qed.

Lemma run_cons (a : Action) (acts : list Action) (s : StoreState) :
  run (a :: acts) s = run acts (step a s).
Proof. reflexivity. Qed.

Lemma run_app (acts1 acts2 : list Action) (s : StoreState) :
  run (acts1 ++ acts2)%list s = run acts2 (run acts1 s).
Proof. unfold run. apply foldl_app. Qed.

Lemma run_draftOps_conflicts (acts : list Action) (s : StoreState) :
  Forall (λ a, isDraftOp a = true) acts → conflicts (run acts s) = conflicts s.
Proof.
  intros Hacts. revert s.
  induction Hacts as [|a acts Ha _ IH]; intros s; [reflexivity |].
  rewrite run_cons, IH. by apply step_draftOp_conflicts.
Qed.

(** C9. Any sequence of the nine operations [selectConflict],
    [startResolution], [cancelResolution], [goToPreview], [returnToEdit],
    [submitResolution], [updateDraft], [updateManualEdit] and
    [initManualDraft] leaves the list of conflicts as it was; the finalize
    step keeps the length of the list and keeps, at its place, every
    conflict whose id is not the selected one. *)
Theorem registry_frame (acts : list Action) (now : string) (s : StoreState)
    (i : nat) (c : Conflict) :
  (Forall (λ a, isDraftOp a = true) acts →
     conflicts (run acts s) = conflicts s)
  ∧ length (conflicts (finalizeResolution now s)) = length (conflicts s)
  ∧ (conflicts s !! i = Some c → selectedConflictId s ≠ Some (c_id c) →
     conflicts (finalizeResolution now s) !! i = Some c).
Proof.
  split; [apply run_draftOps_conflicts |]. split.
  - apply markResolved_length.
  - intros Hi Hne. simpl. rewrite (markResolved_lookup _ _ _ _ _ Hi).
    by apply idMatches_false in Hne as ->.
Qed.

Lemma registry_frame_witness :
  conflicts (run [ SelectConflict "C-002"; StartResolution;
                   UpdateDraft (setReasoning "ok"); GoToPreview; ReturnToEdit;
                   CancelResolution; InitManualDraft C002;
                   UpdateManualEdit "m4" "We are HIPAA compliant" CLARIFY;
                   GoToPreview; SubmitResolution ] loaded)
  = conflicts loaded
  ∧ conflicts (finalizeResolution t1 loaded) !! 2 = Some C003.
Proof.
  split.
  - apply (registry_frame _ t1 loaded 0 C001). by repeat constructor.
  - by apply (registry_frame [] t1 loaded 2 C003).
Defined.

(** ** [resolvedAt] and the status *)

Lemma conflict_ok_resolve (now : string) (c : Conflict) :
  conflict_ok (resolveConflict now c).
Proof. unfold conflict_ok. simpl. split; eauto. Qed.

Lemma conflict_ok_open (c : Conflict) :
  c_status c = OPEN → c_resolvedAt c = None → conflict_ok c.
Proof.
  intros Hst Hat. unfold conflict_ok. rewrite Hst, Hat.
  split; [intros [? [=]] | discriminate].
Qed.

Lemma conflict_ok_mock : Forall conflict_ok MOCK_CONFLICTS.
Proof.
  unfold MOCK_CONFLICTS.
  repeat (constructor; [by apply conflict_ok_open |]).
  constructor.
Qed.

Lemma markResolved_ok sel now (cs : list Conflict) :
  Forall conflict_ok cs → Forall conflict_ok (markResolved sel now cs).
Proof.
  intros Hcs. unfold markResolved. apply Forall_fmap.
  eapply Forall_impl; [exact Hcs |]. intros c Hc. simpl.
  destruct (idMatches sel c); [apply conflict_ok_resolve | exact Hc].
Qed.

Lemma step_ok (a : Action) (s : StoreState) :
  Forall conflict_ok (conflicts s) → Forall conflict_ok (conflicts (step a s)).
Proof.
  intros Hs.
  destruct a; simpl; try exact Hs; try by constructor.
  - apply conflict_ok_mock.
  - unfold startResolution.
    destruct (selectedConflictId s) as [[|? ?]|]; exact Hs.
  - by apply markResolved_ok.
  - unfold updateManualEdit. destruct (resolutionDraft s); exact Hs.
Qed.

Lemma run_ok (acts : list Action) (s : StoreState) :
  Forall conflict_ok (conflicts s) → Forall conflict_ok (conflicts (run acts s)).
Proof.
  revert s. induction acts as [|a acts IH]; intros s Hs; [exact Hs |].
  rewrite run_cons. by apply IH, step_ok.
Qed.

(** C5. After any sequence of store actions, from the initial store or
    from the store with the mock registry loaded, every conflict of the
    registry has a [resolvedAt] exactly when its status is RESOLVED. *)
Theorem resolvedAt_iff_resolved (acts : list Action) :
  Forall conflict_ok (conflicts (run acts initialState))
  ∧ Forall conflict_ok (conflicts (run acts loaded)).
Proof.
  split; apply run_ok; [by constructor | apply conflict_ok_mock].
Qed.

(** ** Advancing from the resolved screen *)

Lemma find_first {A} (p : A → bool) (l : list A) (x : A) :
  find p l = Some x →
  ∃ pre post, l = (pre ++ x :: post)%list ∧ p x = true
              ∧ Forall (λ y, p y = false) pre.
Proof.
  induction l as [|y l IH]; simpl; [discriminate |].
  destruct (p y) eqn:Hy.
  - intros [= ->]. exists [], l. by repeat split.
  - intros Hf. destruct (IH Hf) as (pre & post & -> & Hx & Hpre).
    exists (y :: pre), post. repeat split; [done | by constructor].
Qed.

Lemma find_nowhere {A} (p : A → bool) (l : list A) :
  find p l = None → Forall (λ y, p y = false) l.
Proof.
  induction l as [|y l IH]; simpl; [constructor |].
  destruct (p y) eqn:Hy; [discriminate |]. intros Hf. constructor; auto.
Qed.

Lemma next_candidate_true (conflict c : Conflict) :
  bool_decide (c_status c = OPEN) && negb (String.eqb (c_id c) (c_id conflict))
  = true
  ↔ c_status c = OPEN ∧ c_id c ≠ c_id conflict.
Proof.
  rewrite andb_true_iff, bool_decide_eq_true, negb_true_iff, String.eqb_neq.
  reflexivity.
Qed.

Lemma next_candidate_false (conflict c : Conflict) :
  bool_decide (c_status c = OPEN) && negb (String.eqb (c_id c) (c_id conflict))
  = false
  → c_status c ≠ OPEN ∨ c_id c = c_id conflict.
Proof.
  rewrite andb_false_iff, bool_decide_eq_false, negb_false_iff, String.eqb_eq.
  tauto.
Qed.

(** C7. On the resolved screen of [conflict], the click that advances
    selects the first conflict of the registry, in list order, that is
    OPEN and whose id is not the one of [conflict]; when the registry has
    no such conflict the mode becomes all_cleared and the selected
    reference becomes null. *)
Theorem advance_next_open (s : StoreState) (conflict : Conflict) :
  ConflictWorkspace s = ResolvedView conflict →
  (∃ pre n post,
      conflicts s = (pre ++ n :: post)%list
      ∧ Forall (λ c, c_status c ≠ OPEN ∨ c_id c = c_id conflict) pre
      ∧ c_status n = OPEN ∧ c_id n ≠ c_id conflict
      ∧ advance s = selectConflict (c_id n) s
      ∧ selectedConflictId (advance s) = Some (c_id n)
      ∧ workspaceMode (advance s) = M_view)
  ∨ (Forall (λ c, c_status c ≠ OPEN ∨ c_id c = c_id conflict) (conflicts s)
     ∧ workspaceMode (advance s) = M_all_cleared
     ∧ selectedConflictId (advance s) = None).
Proof.
  intros Hscreen. unfold advance, handleNext. rewrite Hscreen.
  destruct (nextConflict conflict s) as [n|] eqn:Hnext; unfold nextConflict in Hnext.
  - left. apply find_first in Hnext as (pre & post & Hcs & Hn & Hpre).
    apply next_candidate_true in Hn as [Hopen Hid].
    exists pre, n, post. repeat split; try done.
    eapply Forall_impl; [exact Hpre |]. intros c. apply next_candidate_false.
  - right. apply find_nowhere in Hnext. repeat split; try done.
    eapply Forall_impl; [exact Hnext |]. intros c. apply next_candidate_false.
Qed.

Lemma advance_next_open_witness :
  (∃ pre n post,
      conflicts resolved_C001 = (pre ++ n :: post)%list
      ∧ Forall (λ c, c_status c ≠ OPEN ∨ c_id c = "C-001") pre
      ∧ c_status n = OPEN ∧ c_id n ≠ "C-001"
      ∧ advance resolved_C001 = selectConflict (c_id n) resolved_C001
      ∧ selectedConflictId (advance resolved_C001) = Some (c_id n)
      ∧ workspaceMode (advance resolved_C001) = M_view)
  ∨ (Forall (λ c, c_status c ≠ OPEN ∨ c_id c = "C-001")
       (conflicts resolved_C001)
     ∧ workspaceMode (advance resolved_C001) = M_all_cleared
     ∧ selectedConflictId (advance resolved_C001) = None).
Proof.
  apply (advance_next_open resolved_C001 (resolveConflict t1 C001)).
  reflexivity.
Defined.

(** Three conflicts, all OPEN: C-001 resolved, advancing selects C-002. *)
Example advance_after_first :
  ConflictWorkspace resolved_C001 = ResolvedView (resolveConflict t1 C001)
  ∧ selectedConflictId (advance resolved_C001) = Some "C-002"
  ∧ workspaceMode (advance resolved_C001) = M_view
  ∧ resolutionDraft (advance resolved_C001) = None.
Proof. by repeat split. Qed.

(** A registry with C-001 RESOLVED and C-002 the only OPEN conflict:
    resolving C-002 and advancing ends in all_cleared with nothing
    selected. *)
Example advance_after_last :
  let s0 := mkStore V_dashboard None [] [resolveConflict t1 C001; C002]
              (Some "C-002") M_view None in
  let s1 := run [StartResolution; GoToPreview; SubmitResolution;
                 FinalizeResolution t2] s0 in
  workspaceMode s1 = M_resolved
  ∧ workspaceMode (advance s1) = M_all_cleared
  ∧ selectedConflictId (advance s1) = None.
Proof. by repeat split. Qed.

(** ** The way to the preview *)

(** C1 (as the code has it). [goToPreview] sets the mode to preview in
    every state and changes nothing else: it reads neither the draft nor
    the type of the conflict. The "Preview Changes" button is rendered, and
    calls it, whenever the selected conflict is OPEN and the mode is
    resolve. The predicates of the gate are only shown: on the contradiction
    C-002 the reasoning counter is red for "ok" and not red for a reasoning
    of 30 characters, and the gate of the specification is false on the
    first draft and true on the second, which also picks the mention m4. *)
Theorem goToPreview_ungated (s : StoreState) (c : Conflict) :
  (workspaceMode (goToPreview s) = M_preview
   ∧ resolutionDraft (goToPreview s) = resolutionDraft s
   ∧ conflicts (goToPreview s) = conflicts s
   ∧ selectedConflictId (goToPreview s) = selectedConflictId s)
  ∧ (ConflictWorkspace s = WorkspaceView c → c_status c = OPEN →
     workspaceMode s = M_resolve →
     clickFooter PreviewChanges s = goToPreview s)
  ∧ (reasoningCounterRed (resolutionDraft contradiction_ok) = true
     ∧ (previewGate_spec C002 <$> resolutionDraft contradiction_ok) = Some false)
  ∧ (reasoningCounterRed (resolutionDraft contradiction_good) = false
     ∧ (previewGate_spec C002 <$> resolutionDraft contradiction_good) = Some true).
Proof.
  split; [by repeat split |]. split; [| by repeat split].
  intros Hscreen Hopen Hmode. unfold clickFooter, footerButtons.
  by rewrite Hscreen, Hopen, Hmode.
Qed.

Lemma goToPreview_ungated_witness :
  clickFooter PreviewChanges contradiction_good = goToPreview contradiction_good.
Proof. by apply (goToPreview_ungated contradiction_good C002). Defined.

(** C1, refuted as stated: the contradiction C-002 is being resolved, its
    draft holds the reasoning "ok" and no selected mention, so the gate
    fails; [goToPreview], and the click on "Preview Changes", reach the
    preview all the same. *)
Lemma preview_reached_with_failing_gate :
  ConflictWorkspace contradiction_ok = WorkspaceView C002
  ∧ c_type C002 = CONTRADICTION
  ∧ workspaceMode contradiction_ok = M_resolve
  ∧ (reasoning <$> resolutionDraft contradiction_ok) = Some (Some "ok")
  ∧ (selectedCorrectId <$> resolutionDraft contradiction_ok) = Some None
  ∧ (previewGate_spec C002 <$> resolutionDraft contradiction_ok) = Some false
  ∧ workspaceMode (goToPreview contradiction_ok) = M_preview
  ∧ workspaceMode (clickFooter PreviewChanges contradiction_ok) = M_preview.
Proof. by repeat split. Qed.

(** The manual editor opened on C-003 and left untouched: no edit is
    dirty, the gate of the specification is false, and the click on
    "Preview Changes" reaches the preview. *)
Example intra_doc_preview_without_edits :
  let s := run [InitManualDraft C003] editing_C003 in
  ConflictWorkspace s = WorkspaceView C003
  ∧ (previewGate_spec C003 <$> resolutionDraft s) = Some false
  ∧ workspaceMode (clickFooter PreviewChanges s) = M_preview.
Proof. by repeat split. Qed.

(** ** The manual editor: [isDirty] and the texts of a draft *)

Lemma foldl_edits_lookup (ms : list Mention) (acc : gmap string ManualEdit)
    (mid : string) (e : ManualEdit) :
  foldl (λ acc m, <[m_id m := editOf m]> acc) acc ms !! mid = Some e →
  acc !! mid = Some e ∨ ∃ m, m ∈ ms ∧ m_id m = mid ∧ e = editOf m.
Proof.
  revert acc. induction ms as [|m ms IH]; intros acc; simpl; [by left |].
  intros Hl. destruct (IH _ Hl) as [Hacc | (m' & Hin & Hid & He)].
  - destruct (decide (m_id m = mid)) as [Heq | Hne].
    + rewrite Heq, lookup_insert_eq in Hacc. injection Hacc as <-.
      right. exists m. split; [by left | done].
    + rewrite lookup_insert_ne in Hacc by done. by left.
  - right. exists m'. split; [by right | done].
Qed.

Lemma foldl_assignEdit (ms : list Mention) (acc : gmap string ManualEdit) :
  foldl assignEdit acc ms
  = foldl (λ acc m, <[m_id m := editOf m]> acc) acc
      (List.filter (λ m, negb (String.eqb (m_id m) "__proto__")) ms).
Proof.
  revert acc. induction ms as [|m ms IH]; intros acc; simpl; [reflexivity |].
  unfold assignEdit at 2.
  destruct (String.eqb (m_id m) "__proto__"); simpl; apply IH.
Qed.

Lemma initialEdits_lookup (ms : list Mention) (mid : string) (e : ManualEdit) :
  initialEdits ms !! mid = Some e →
  ∃ m, m ∈ ms ∧ m_id m = mid ∧ e = editOf m.
Proof.
  unfold initialEdits. rewrite foldl_assignEdit. intros Hl.
  apply foldl_edits_lookup in Hl as [Hempty | (m & Hin & Hm)].
  - by rewrite lookup_empty in Hempty.
  - exists m. split; [| exact Hm].
    apply list_elem_of_In, List.filter_In in Hin as [Hin _].
    by apply list_elem_of_In.
Qed.

(** With distinct ids, [find] by id returns the mention itself. *)
Lemma find_mention_unique (ms : list Mention) (m : Mention) :
  NoDup (m_id <$> ms) → m ∈ ms →
  find (λ m', String.eqb (m_id m') (m_id m)) ms = Some m.
Proof.
  induction ms as [|m0 ms IH]; intros Hnd Hin; [by apply elem_of_nil in Hin |].
  rewrite fmap_cons in Hnd. apply NoDup_cons in Hnd as [Hfresh Hnd].
  simpl. apply elem_of_cons in Hin as [-> | Hin].
  - by rewrite String.eqb_refl.
  - destruct (String.eqb_spec (m_id m0) (m_id m)) as [Heq | _]; [| by apply IH].
    destruct Hfresh. rewrite Heq. apply list_elem_of_fmap. by exists m.
Qed.

Lemma selectedConflict_init (c : Conflict) (s : StoreState) :
  selectedConflict (initManualDraft c s) = selectedConflict s.
Proof. reflexivity. Qed.

Lemma selectedConflict_update mid t a (s : StoreState) :
  selectedConflict (updateManualEdit mid t a s) = selectedConflict s.
Proof. unfold updateManualEdit. by destruct (resolutionDraft s). Qed.

Lemma originalMention_update mid t a (s : StoreState) (mid' : string) :
  originalMention (updateManualEdit mid t a s) mid' = originalMention s mid'.
Proof. unfold originalMention. by rewrite selectedConflict_update. Qed.

Lemma dirty_inv_init (c : Conflict) (s : StoreState) :
  selectedConflict s = Some c → NoDup (m_id <$> c_mentions c) →
  dirty_inv (initManualDraft c s).
Proof.
  intros Hsel Hnd. unfold dirty_inv. simpl. intros mid e Hl.
  apply initialEdits_lookup in Hl as (m & Hin & <- & ->).
  unfold originalMention. rewrite selectedConflict_init, Hsel.
  rewrite (find_mention_unique _ _ Hnd Hin). simpl. split; done.
Qed.

Lemma dirty_inv_update mid t a (s : StoreState) :
  dirty_inv s → dirty_inv (updateManualEdit mid t a s).
Proof.
  intros Hinv. unfold dirty_inv.
  destruct (resolutionDraft (updateManualEdit mid t a s)) as [d'|] eqn:Hd';
    [| done].
  intros mid' e Hl. rewrite originalMention_update.
  unfold dirty_inv in Hinv. unfold updateManualEdit in Hd'.
  destruct (resolutionDraft s) as [d|] eqn:Hd; [| by rewrite Hd in Hd'].
  simpl in Hd'. injection Hd' as <-. simpl in Hl.
  destruct (decide (mid = mid')) as [<- | Hne].
  - rewrite lookup_insert_eq in Hl. injection Hl as <-. simpl.
    destruct (originalMention s mid) as [m|]; [| done].
    rewrite negb_true_iff. apply String.eqb_neq.
  - rewrite lookup_insert_ne in Hl by done. by apply Hinv.
Qed.

(** C4 (as the code has it). Let [c] be the selected conflict, with
    distinct mention ids. After any sequence of [initManualDraft c] and
    [updateManualEdit] calls, every edit of the draft kept under an id
    found among the mentions of [c] is dirty exactly when its text differs
    from the text of that mention, and every edit kept under an id that is
    not found is dirty. *)
Theorem isDirty_tracks_original (c : Conflict) (acts : list Action)
    (s : StoreState) :
  selectedConflict s = Some c →
  NoDup (m_id <$> c_mentions c) →
  Forall (isManualOp c) acts →
  dirty_inv s →
  dirty_inv (run acts s).
Proof.
  intros Hsel Hnd Hacts. revert s Hsel.
  induction Hacts as [|a acts Ha _ IH]; intros s Hsel Hinv; [exact Hinv |].
  rewrite run_cons. destruct Ha as [-> | (mid & t & x & ->)]; simpl.
  - apply IH; [by rewrite selectedConflict_init | by apply dirty_inv_init].
  - apply IH; [by rewrite selectedConflict_update | by apply dirty_inv_update].
Qed.

Lemma isDirty_tracks_original_witness :
  dirty_inv
    (run [ InitManualDraft C003;
           UpdateManualEdit "m6" "Monthly fee: $52,000 per month" UPDATE;
           UpdateManualEdit "m7" "Customer will pay $52,000 monthly" CLARIFY;
           UpdateManualEdit "m6" "Monthly fee: $50,000 per month" UPDATE;
           UpdateManualEdit "m99" "Total" KEEP ] editing_C003).
Proof.
  apply (isDirty_tracks_original C003).
  - reflexivity.
  - apply (bool_decide_unpack _). vm_compute. exact I.
  - repeat (apply List.Forall_cons;
            [first [by left | by right; repeat eexists] |]).
    apply List.Forall_nil.
  - simpl. exact I.
Defined.

(** An edit followed by a reset on m6, and an edit of m7. *)
Example edit_reset_cycle :
  let s := run [ InitManualDraft C003;
                 UpdateManualEdit "m6" "Monthly fee: $52,000 per month" UPDATE;
                 UpdateManualEdit "m7" "Customer will pay $52,000 monthly" CLARIFY;
                 UpdateManualEdit "m6" "Monthly fee: $50,000 per month" UPDATE ]
             editing_C003 in
  (resolutionDraft s ≫= λ d, isDirty <$> edits d !! "m6") = Some false
  ∧ (resolutionDraft s ≫= λ d, isDirty <$> edits d !! "m7") = Some true
  ∧ (resolutionDraft s ≫= λ d, isDirty <$> edits d !! "m8") = Some false.
Proof. by repeat split. Qed.

(** C4, refuted as stated: "m99" is the id of no mention of the selected
    conflict C-003, and the edit stored under it is marked dirty, not
    treated as identical to an original. *)
Lemma unknown_mention_marked_dirty :
  let s := run [ InitManualDraft C003;
                 UpdateManualEdit "m99" "Monthly fee" UPDATE ] editing_C003 in
  selectedConflict s = Some C003
  ∧ originalMention s "m99" = None
  ∧ (resolutionDraft s ≫= λ d, edits d !! "m99")
    = Some (mkManualEdit "Monthly fee" UPDATE true).
Proof. by repeat split. Qed.

Lemma texts_le_init (n : nat) (c : Conflict) (s : StoreState) :
  Forall (λ m, String.length (m_text m) ≤ n)%nat (c_mentions c) →
  texts_le n (initManualDraft c s).
Proof.
  intros Hms. unfold texts_le. simpl. intros mid e Hl.
  apply initialEdits_lookup in Hl as (m & Hin & _ & ->). simpl.
  by apply (proj1 (Forall_forall _ _) Hms).
Qed.

Lemma texts_le_update (n : nat) mid t a (s : StoreState) :
  (String.length t ≤ n)%nat → texts_le n s →
  texts_le n (updateManualEdit mid t a s).
Proof.
  intros Ht Hs. unfold texts_le, updateManualEdit in *.
  destruct (resolutionDraft s) as [d|] eqn:Hd; [| by rewrite Hd].
  simpl. intros mid' e Hl.
  destruct (decide (mid = mid')) as [<- | Hne].
  - rewrite lookup_insert_eq in Hl. by injection Hl as <-.
  - rewrite lookup_insert_ne in Hl by done. by apply (Hs mid').
Qed.

Lemma texts_le_calls (n : nat) (calls : list EditCall) (s : StoreState) :
  Forall (λ k, String.length k.1.2 ≤ n)%nat calls → texts_le n s →
  texts_le n (run (callAction <$> calls) s).
Proof.
  intros Hcalls. revert s.
  induction Hcalls as [|[[mid t] a] calls Hk _ IH]; intros s Hs; [exact Hs |].
  rewrite fmap_cons, run_cons. apply IH. simpl. by apply texts_le_update.
Qed.

Lemma updateManualEdit_keeps_text mid t a (s : StoreState) (d : ResolutionDraft) :
  resolutionDraft s = Some d →
  (resolutionDraft (updateManualEdit mid t a s) ≫= λ d', text <$> edits d' !! mid)
  = Some t.
Proof.
  intros Hd. unfold updateManualEdit. rewrite Hd. simpl.
  by rewrite lookup_insert_eq.
Qed.

(** C8 (as the code has it). The store puts no bound on a text:
    [updateManualEdit] keeps the text it is given, whole. A draft made by
    [initManualDraft c] followed by calls of [updateManualEdit] holds only
    texts of at most 1000 characters when the mentions of [c] and the texts
    passed to the calls have at most 1000 characters. *)
Theorem texts_bounded_by_inputs (c : Conflict) (calls : list EditCall)
    (s : StoreState) :
  (Forall (λ m, String.length (m_text m) ≤ 1000)%nat (c_mentions c) →
   Forall (λ k, String.length k.1.2 ≤ 1000)%nat calls →
   texts_le 1000 (run (InitManualDraft c :: (callAction <$> calls)) s))
  ∧ (∀ mid t a d, resolutionDraft s = Some d →
       (resolutionDraft (updateManualEdit mid t a s)
          ≫= λ d', text <$> edits d' !! mid) = Some t).
Proof.
  split.
  - intros Hms Hcalls. rewrite run_cons.
    apply texts_le_calls; [exact Hcalls |]. by apply texts_le_init.
  - intros mid t a d. apply updateManualEdit_keeps_text.
Qed.

Lemma texts_bounded_by_inputs_witness :
  texts_le 1000
    (run (InitManualDraft C003
          :: (callAction <$>
                [ ("m6", "Monthly fee: $52,000 per month", UPDATE);
                  ("m7", "Customer will pay $52,000 monthly", CLARIFY) ]))
       editing_C003)
  ∧ (resolutionDraft
       (updateManualEdit "m6" longText UPDATE (initManualDraft C003 editing_C003))
       ≫= λ d', text <$> edits d' !! "m6") = Some longText.
Proof.
  split.
  - apply (texts_bounded_by_inputs C003).
    + repeat (apply List.Forall_cons; [simpl; lia |]). apply List.Forall_nil.
    + repeat (apply List.Forall_cons; [simpl; lia |]). apply List.Forall_nil.
  - eapply (texts_bounded_by_inputs C003 [] (initManualDraft C003 editing_C003)).
    reflexivity.
Defined.

(** C8, refuted as stated: a text of 1001 characters passed to
    [updateManualEdit] is stored under m6 with its 1001 characters, and the
    counter of the editor only turns red. *)
Lemma long_text_stored :
  let s := run [ InitManualDraft C003; UpdateManualEdit "m6" longText UPDATE ]
             editing_C003 in
  String.length longText = 1001%nat
  ∧ (resolutionDraft s ≫= λ d, (String.length ∘ text) <$> edits d !! "m6")
    = Some 1001%nat
  ∧ charCounterRed (resolutionDraft s ≫= λ d, edits d !! "m6") = true.
Proof. vm_compute. by repeat split. Qed.

(** * Further properties of the code *)

(** ** [updateManualEdit] and the handlers of the manual editor *)

Lemma store_eq (s s' : StoreState) :
  view s = view s' → currentUser s = currentUser s' → files s = files s' →
  conflicts s = conflicts s' → selectedConflictId s = selectedConflictId s' →
  workspaceMode s = workspaceMode s' → resolutionDraft s = resolutionDraft s' →
  s = s'.
Proof. destruct s, s'; simpl; intros; by subst. Qed.

Lemma draft_eq (d d' : ResolutionDraft) :
  conflictId d = conflictId d' → selectedTemporalId d = selectedTemporalId d' →
  keepHistory d = keepHistory d' → selectedCorrectId d = selectedCorrectId d' →
  reasoning d = reasoning d' → edits d = edits d' → d = d'.
Proof. destruct d, d'; simpl; intros; by subst. Qed.

Lemma originalMention_init (c : Conflict) (s : StoreState) (mid : string) :
  originalMention (initManualDraft c s) mid = originalMention s mid.
Proof. reflexivity. Qed.

Lemma updateManualEdit_overwrite (mid t1' t2' : string) (a1 a2 : ManualAction)
    (s : StoreState) :
  updateManualEdit mid t2' a2 (updateManualEdit mid t1' a1 s)
  = updateManualEdit mid t2' a2 s.
Proof.
  unfold updateManualEdit at 1 3. rewrite originalMention_update.
  unfold updateManualEdit. destruct (resolutionDraft s) as [d|] eqn:Hd.
  - simpl. by rewrite insert_insert_eq.
  - by rewrite Hd.
Qed.

(** X1. A second [updateManualEdit] on the same mention replaces the first
    (so the call is idempotent for fixed arguments), and two calls on
    different mentions commute. *)
Theorem updateManualEdit_compose (mid1 mid2 t1' t2' : string)
    (a1 a2 : ManualAction) (s : StoreState) :
  updateManualEdit mid1 t2' a2 (updateManualEdit mid1 t1' a1 s)
  = updateManualEdit mid1 t2' a2 s
  ∧ (mid1 ≠ mid2 →
     updateManualEdit mid2 t2' a2 (updateManualEdit mid1 t1' a1 s)
     = updateManualEdit mid1 t1' a1 (updateManualEdit mid2 t2' a2 s)).
Proof.
  split; [apply updateManualEdit_overwrite |].
  intros Hne. unfold updateManualEdit at 1 3.
  rewrite !originalMention_update.
  unfold updateManualEdit. destruct (resolutionDraft s) as [d|] eqn:Hd.
  - simpl. by rewrite insert_insert_ne.
  - by rewrite Hd.
Qed.

Lemma updateManualEdit_compose_witness :
  updateManualEdit "m7" "Customer will pay $52,000 monthly" CLARIFY
    (updateManualEdit "m6" "Monthly fee: $52,000 per month" UPDATE
       (initManualDraft C003 editing_C003))
  = updateManualEdit "m6" "Monthly fee: $52,000 per month" UPDATE
      (updateManualEdit "m7" "Customer will pay $52,000 monthly" CLARIFY
         (initManualDraft C003 editing_C003)).
Proof. by apply updateManualEdit_compose. Defined.

Lemma initialEdits_snoc (ms : list Mention) (m : Mention) :
  initialEdits (ms ++ [m]) = assignEdit (initialEdits ms) m.
Proof. unfold initialEdits. by rewrite foldl_app. Qed.

Lemma initialEdits_dom (ms : list Mention) :
  dom (initialEdits ms)
  = list_to_set (List.filter (λ k, negb (String.eqb k "__proto__"))
                   (m_id <$> ms)).
Proof.
  induction ms as [|m ms IH] using rev_ind; [apply dom_empty_L |].
  rewrite initialEdits_snoc, fmap_app, List.filter_app, list_to_set_app_L.
  unfold assignEdit. simpl.
  destruct (String.eqb (m_id m) "__proto__"); simpl.
  - by rewrite IH, (right_id_L ∅ (∪)).
  - by rewrite dom_insert_L, IH, (right_id_L ∅ (∪)), (comm_L (∪)).
Qed.

Lemma initialEdits_lookup_in (ms : list Mention) (m : Mention) :
  NoDup (m_id <$> ms) → m ∈ ms → m_id m ≠ "__proto__" →
  initialEdits ms !! m_id m = Some (editOf m).
Proof.
  intros Hnd Hin Hkey.
  destruct (initialEdits ms !! m_id m) as [e|] eqn:He.
  - apply initialEdits_lookup in He as (m' & Hin' & Hid & ->).
    pose proof (find_mention_unique _ _ Hnd Hin) as Hf.
    pose proof (find_mention_unique _ _ Hnd Hin') as Hf'.
    rewrite Hid in Hf'. rewrite Hf in Hf'. by injection Hf' as ->.
  - apply not_elem_of_dom in He. rewrite initialEdits_dom in He.
    destruct He. apply elem_of_list_to_set, list_elem_of_In, List.filter_In.
    split.
    + apply list_elem_of_In, list_elem_of_fmap. by exists m.
    + by apply negb_true_iff, String.eqb_neq.
Qed.

(** X2. The manual editor opened on the selected conflict [c], whose
    mention ids are distinct and none of which is ["__proto__"] (so that
    [initManualDraft] leaves the prototype of [edits] alone and every
    mention has an own entry): whatever was typed for a mention [m] of [c],
    the "Reset" button brings the store back to the state right after the
    editor was opened. *)
Theorem reset_restores_initial (c : Conflict) (m : Mention) (t : string)
    (a : ManualAction) (s : StoreState) :
  selectedConflict s = Some c →
  NoDup (m_id <$> c_mentions c) →
  "__proto__" ∉ (m_id <$> c_mentions c) →
  m ∈ c_mentions c →
  onReset m (updateManualEdit (m_id m) t a (initManualDraft c s))
  = initManualDraft c s.
Proof.
  intros Hsel Hnd Hproto Hin.
  assert (Hkey : m_id m ≠ "__proto__").
  { intros Heq. apply Hproto. rewrite <- Heq.
    apply list_elem_of_fmap. by exists m. }
  unfold onReset.
  rewrite updateManualEdit_overwrite.
  unfold updateManualEdit. simpl.
  unfold originalMention. rewrite selectedConflict_init, Hsel.
  rewrite (find_mention_unique _ _ Hnd Hin), String.eqb_refl. simpl.
  apply store_eq; try reflexivity. simpl. f_equal.
  apply draft_eq; try reflexivity. simpl.
  apply insert_id. by apply initialEdits_lookup_in.
Qed.

Lemma reset_restores_initial_witness :
  onReset m6
    (updateManualEdit "m6" "Monthly fee: $52,000 per month" CLARIFY
       (initManualDraft C003 editing_C003))
  = initManualDraft C003 editing_C003.
Proof.
  apply (reset_restores_initial C003 m6).
  - reflexivity.
  - apply (bool_decide_unpack _). vm_compute. exact I.
  - apply (bool_decide_unpack _). vm_compute. exact I.
  - by left.
Defined.

Lemma recomputed_dirty (s : StoreState) (d : ResolutionDraft) (mid : string)
    (e : ManualEdit) :
  dirty_inv s → resolutionDraft s = Some d → edits d !! mid = Some e →
  match originalMention s mid with
  | Some m => negb (String.eqb (text e) (m_text m))
  | None => true
  end = isDirty e.
Proof.
  intros Hinv Hd He. unfold dirty_inv in Hinv. rewrite Hd in Hinv.
  specialize (Hinv mid e He).
  destruct (originalMention s mid) as [m|]; [| done].
  destruct (String.eqb_spec (text e) (m_text m)) as [Heq | Hne]; simpl.
  - destruct (isDirty e); [| done]. by destruct (proj1 Hinv eq_refl).
  - symmetry. by apply Hinv.
Qed.

(** X3. A click on an action radio of the manual editor. When the text
    kept for the mention is not empty (and the dirty flags of the draft are
    right), only the action of the edit changes. When the kept text is the
    empty string, the click puts the original text of the mention back and
    the edit is no longer dirty. *)
Theorem action_change_keeps_or_restores (m : Mention) (a : ManualAction)
    (s : StoreState) (d : ResolutionDraft) (e : ManualEdit) :
  resolutionDraft s = Some d →
  edits d !! m_id m = Some e →
  (text e ≠ "" → dirty_inv s →
   draftEdit (onActionChange m a s) m
   = Some (mkManualEdit (text e) a (isDirty e)))
  ∧ (text e = "" → originalMention s (m_id m) = Some m →
     draftEdit (onActionChange m a s) m
     = Some (mkManualEdit (m_text m) a false)).
Proof.
  intros Hd He.
  assert (Hval : textareaValue s m
                 = if String.eqb (text e) "" then m_text m else text e).
  { unfold textareaValue, draftEdit. by rewrite Hd, He. }
  unfold onActionChange, draftEdit. rewrite Hval.
  unfold updateManualEdit. rewrite Hd. simpl. rewrite lookup_insert_eq.
  split.
  - intros Hne Hinv. apply String.eqb_neq in Hne. rewrite Hne.
    by rewrite (recomputed_dirty s d (m_id m) e Hinv Hd He).
  - intros Hempty Horig. rewrite Hempty, Horig. simpl.
    by rewrite String.eqb_refl.
Qed.

Lemma action_change_keeps_or_restores_witness :
  draftEdit
    (onActionChange m6 KEEP
       (updateManualEdit "m6" "Monthly fee: $52,000 per month" UPDATE
          (initManualDraft C003 editing_C003))) m6
  = Some (mkManualEdit "Monthly fee: $52,000 per month" KEEP true)
  ∧ draftEdit
      (onActionChange m6 KEEP
         (updateManualEdit "m6" "" UPDATE (initManualDraft C003 editing_C003)))
      m6
    = Some (mkManualEdit "Monthly fee: $50,000 per month" KEEP false).
Proof.
  split.
  - eapply (action_change_keeps_or_restores m6 KEEP
              (updateManualEdit "m6" "Monthly fee: $52,000 per month" UPDATE
                 (initManualDraft C003 editing_C003))
              _ (mkManualEdit "Monthly fee: $52,000 per month" UPDATE true)).
    + reflexivity.
    + reflexivity.
    + discriminate.
    + apply dirty_inv_update, dirty_inv_init; [reflexivity |].
      apply (bool_decide_unpack _). vm_compute. exact I.
  - eapply (action_change_keeps_or_restores m6 KEEP
              (updateManualEdit "m6" "" UPDATE (initManualDraft C003 editing_C003))
              _ (mkManualEdit "" UPDATE true)).
    + reflexivity.
    + reflexivity.
    + reflexivity.
    + reflexivity.
Defined.

Lemma length_filter_fmap_id (ms : list Mention) :
  length (List.filter (λ k, negb (String.eqb k "__proto__")) (m_id <$> ms))
  = length (List.filter (λ m, negb (String.eqb (m_id m) "__proto__")) ms).
Proof.
  induction ms as [|m ms IH]; [reflexivity |].
  rewrite fmap_cons. simpl.
  destruct (String.eqb (m_id m) "__proto__"); simpl; by rewrite IH.
Qed.

Lemma NoDup_list_filter {A} (f : A → bool) (l : list A) :
  NoDup l → NoDup (List.filter f l).
Proof.
  induction 1 as [|x l Hx _ IH]; simpl; [constructor |].
  destruct (f x); [| exact IH]. constructor; [| exact IH].
  intros Hin. apply Hx.
  apply list_elem_of_In, List.filter_In in Hin as [Hin _].
  by apply list_elem_of_In.
Qed.

Lemma size_initialEdits (ms : list Mention) :
  NoDup (m_id <$> ms) →
  size (initialEdits ms)
  = length (List.filter (λ m, negb (String.eqb (m_id m) "__proto__")) ms).
Proof.
  intros Hnd. rewrite <- size_dom, initialEdits_dom.
  rewrite size_list_to_set by (by apply NoDup_list_filter).
  apply length_filter_fmap_id.
Qed.

(** X4. The "Changes Tracked" counter counts the own entries of [edits],
    not the changes. Right after the manual editor is opened on a conflict
    with distinct mention ids it shows the number of mentions whose id is
    not ["__proto__"] (the assignment under that key adds no entry), all of
    them unchanged; and an edit of a mention of the conflict whose id is
    not ["__proto__"] leaves the counter where it was. *)
Theorem changesTracked_counts_mentions (c : Conflict) (m : Mention)
    (t : string) (a : ManualAction) (s : StoreState) :
  NoDup (m_id <$> c_mentions c) →
  changesTracked (initManualDraft c s)
  = length (List.filter (λ m, negb (String.eqb (m_id m) "__proto__"))
              (c_mentions c))
  ∧ (m ∈ c_mentions c → m_id m ≠ "__proto__" →
     changesTracked (updateManualEdit (m_id m) t a (initManualDraft c s))
     = changesTracked (initManualDraft c s)).
Proof.
  intros Hnd. unfold changesTracked, updateManualEdit. simpl. split.
  - by apply size_initialEdits.
  - intros Hin Hkey. apply map_size_insert_Some.
    rewrite initialEdits_lookup_in by done. eauto.
Qed.

Lemma changesTracked_counts_mentions_witness :
  changesTracked (initManualDraft C003 editing_C003) = 3%nat
  ∧ changesTracked
      (updateManualEdit "m6" "Monthly fee: $52,000 per month" UPDATE
         (initManualDraft C003 editing_C003))
    = changesTracked (initManualDraft C003 editing_C003).
Proof.
  assert (Hnd : NoDup (m_id <$> c_mentions C003)).
  { apply (bool_decide_unpack _). vm_compute. exact I. }
  pose proof (changesTracked_counts_mentions C003 m6
                "Monthly fee: $52,000 per month" UPDATE editing_C003 Hnd)
    as [Hopen Hedit].
  split.
  - rewrite Hopen. reflexivity.
  - apply Hedit; [by left | discriminate].
Defined.

(** Two mentions with the distinct ids ["__proto__"] and ["m2"]: the
    counter shows 1 after the editor is opened, and 2 once the first one
    has been edited (the computed key of the spread is an own property). *)
Example proto_key_not_counted :
  let c := mkConflict "C-9" INTRA_DOC "t" "d"
             [ mention "__proto__" "d1" "a.pdf" 1 "1" "first" None;
               mention "m2" "d1" "a.pdf" 2 "2" "second" None ]
             OPEN None None in
  changesTracked (initManualDraft c initialState) = 1%nat
  ∧ changesTracked
      (updateManualEdit "__proto__" "changed" UPDATE
         (initManualDraft c initialState)) = 2%nat.
Proof. by vm_compute. Qed.

(** ** Grouping the mentions by document *)

Lemma mentionsByDoc_snoc (ms : list Mention) (m : Mention) :
  mentionsByDoc (ms ++ [m]) = groupStep (mentionsByDoc ms) m.
Proof. unfold mentionsByDoc. by rewrite foldl_app. Qed.

Lemma mentionsByDoc_ok (ms : list Mention) :
  Forall (λ m, m_docId m ∉ objectPrototypeKeys) ms →
  ∃ g, mentionsByDoc ms = Some g
       ∧ ∀ d, g !! d
              = match List.filter (λ m, String.eqb (m_docId m) d) ms with
                | [] => None
                | l => Some l
                end.
Proof.
  induction ms as [|m ms IH] using rev_ind; intros Hok.
  - exists ∅. split; [reflexivity |]. intros d. apply lookup_empty.
  - rewrite Forall_app, Forall_singleton in Hok. destruct Hok as [Hms Hm].
    destruct (IH Hms) as (g & Hg & Hlook).
    rewrite mentionsByDoc_snoc, Hg. unfold groupStep.
    rewrite (bool_decide_eq_false_2 _ Hm).
    eexists. split; [reflexivity |]. intros d.
    rewrite List.filter_app. simpl.
    destruct (String.eqb_spec (m_docId m) d) as [<- | Hne].
    + rewrite lookup_insert_eq, Hlook.
      by destruct (List.filter _ ms).
    + rewrite lookup_insert_ne, Hlook by done. by rewrite app_nil_r.
Qed.

Lemma mentionsByDoc_throws (ms : list Mention) :
  Exists (λ m, m_docId m ∈ objectPrototypeKeys) ms → mentionsByDoc ms = None.
Proof.
  induction ms as [|m ms IH] using rev_ind; intros Hex.
  - by rewrite Exists_nil in Hex.
  - rewrite mentionsByDoc_snoc. rewrite Exists_app in Hex.
    destruct Hex as [Hms | Hm].
    + by rewrite (IH Hms).
    + rewrite Exists_cons, Exists_nil in Hm. destruct Hm as [Hm | []].
      destruct (mentionsByDoc ms); [| reflexivity]. unfold groupStep.
      by rewrite (bool_decide_eq_true_2 _ Hm).
Qed.

(** X5. [mentionsByDoc]: when no document id is a name inherited from
    [Object.prototype], the grouping succeeds, the group of a document is
    the list of the mentions with that document id, in their order, and no
    group is empty (so the [docMentions[0]] of the card header exists). When
    some document id is such a name, the reduce raises a TypeError. *)
Theorem mentionsByDoc_groups (ms : list Mention) :
  (Forall (λ m, m_docId m ∉ objectPrototypeKeys) ms →
   ∃ g, mentionsByDoc ms = Some g
        ∧ (∀ d, g !! d
                = match List.filter (λ m, String.eqb (m_docId m) d) ms with
                  | [] => None
                  | l => Some l
                  end)
        ∧ (∀ d l, g !! d = Some l → l ≠ []))
  ∧ (Exists (λ m, m_docId m ∈ objectPrototypeKeys) ms →
     mentionsByDoc ms = None).
Proof.
  split; [| apply mentionsByDoc_throws].
  intros Hok. destruct (mentionsByDoc_ok ms Hok) as (g & Hg & Hlook).
  exists g. repeat split; [done | done |].
  intros d l Hl ->. rewrite Hlook in Hl.
  by destruct (List.filter _ ms).
Qed.

Lemma mentionsByDoc_groups_witness :
  (∃ g, mentionsByDoc (c_mentions C001) = Some g
        ∧ (∀ d, g !! d
                = match List.filter (λ m, String.eqb (m_docId m) d)
                          (c_mentions C001) with
                  | [] => None
                  | l => Some l
                  end)
        ∧ (∀ d l, g !! d = Some l → l ≠ []))
  ∧ mentionsByDoc [mention "m1" "constructor" "a.pdf" 1 "1" "text" None] = None.
Proof.
  split.
  - apply (mentionsByDoc_groups (c_mentions C001)).
    apply (bool_decide_unpack _). vm_compute. exact I.
  - apply (mentionsByDoc_groups [mention "m1" "constructor" "a.pdf" 1 "1" "text" None]).
    apply Exists_cons_hd. simpl. by left.
Defined.

(** The three mentions of C-003 share one document: one group of three. *)
Example mentionsByDoc_C003 :
  mentionsByDoc (c_mentions C003) = Some {[ "d5" := c_mentions C003 ]}.
Proof. by vm_compute. Qed.

(** ** The sidebar, the pending count and the export *)

Lemma toLowerChar_idem (c : ascii) : toLowerChar (toLowerChar c) = toLowerChar c.
Proof. destruct c as [[] [] [] [] [] [] [] []]; reflexivity. Qed.

Lemma toLowerCase_idem (s : string) : toLowerCase (toLowerCase s) = toLowerCase s.
Proof.
  induction s as [|c s IH]; simpl; [reflexivity |].
  by rewrite toLowerChar_idem, IH.
Qed.

Lemma prefix_refl (s : string) : String.prefix s s = true.
Proof.
  induction s as [|c s IH]; simpl; [reflexivity |].
  by destruct (ascii_dec c c).
Qed.

Lemma includes_empty (s : string) : includes s "" = true.
Proof. by destruct s. Qed.

Lemma includes_refl (s : string) : includes s s = true.
Proof.
  destruct s as [|c s]; [reflexivity |].
  change (String.prefix (String c s) (String c s)
          || includes s (String c s) = true).
  by rewrite prefix_refl.
Qed.

Lemma filter_all {A} (f : A → bool) (l : list A) :
  (∀ x, f x = true) → List.filter f l = l.
Proof.
  intros Hf. induction l as [|x l IH]; simpl; [reflexivity |].
  by rewrite Hf, IH.
Qed.

Lemma filter_sublist {A} (f : A → bool) (l : list A) : sublist (List.filter f l) l.
Proof.
  induction l as [|x l IH]; simpl; [constructor |].
  destruct (f x); by constructor.
Qed.

(** X6. The rows of the sidebar. With an empty search term and the
    "pending only" switch off every conflict is listed; the rows are always
    a sublist of the registry (same order, nothing invented); with the
    switch on every row is OPEN; the search ignores the case of the term;
    and a conflict that passes the switch is listed when the term is its id
    or its title. *)
Theorem sidebar_rows (term : string) (pendingOnly : bool) (s : StoreState) :
  filteredConflicts "" false s = conflicts s
  ∧ sublist (filteredConflicts term pendingOnly s) (conflicts s)
  ∧ Forall (λ c, c_status c = OPEN) (filteredConflicts term true s)
  ∧ filteredConflicts (toLowerCase term) pendingOnly s
    = filteredConflicts term pendingOnly s
  ∧ (∀ c, c ∈ conflicts s → matchesFilter pendingOnly c = true →
       c_id c = term ∨ c_title c = term →
       c ∈ filteredConflicts term pendingOnly s).
Proof.
  unfold filteredConflicts. repeat split.
  - apply filter_all. intros c. unfold matchesSearch. simpl.
    by rewrite includes_empty.
  - apply filter_sublist.
  - apply Forall_forall. intros c Hc.
    apply list_elem_of_In, List.filter_In in Hc as [_ Hc].
    apply andb_true_iff in Hc as [_ Hc]. simpl in Hc.
    by apply bool_decide_eq_true in Hc.
  - unfold matchesSearch. by rewrite toLowerCase_idem.
  - intros c Hin Hflt Hterm.
    apply list_elem_of_In, List.filter_In. split; [by apply list_elem_of_In |].
    rewrite Hflt, andb_true_r. unfold matchesSearch.
    destruct Hterm as [<- | <-]; rewrite includes_refl;
      [apply orb_true_r | reflexivity].
Qed.

Lemma sidebar_rows_witness : C002 ∈ filteredConflicts "C-002" true loaded.
Proof.
  apply (sidebar_rows "C-002" true loaded).
  - right. by left.
  - reflexivity.
  - by left.
Defined.

(** A search in capitals, and the switch after C-001 was resolved. *)
Example sidebar_search :
  c_id <$> filteredConflicts "HIPAA" false loaded = ["C-002"]
  ∧ c_id <$> filteredConflicts "c-00" true resolved_C001 = ["C-002"; "C-003"]
  ∧ pendingCount resolved_C001 = 2%nat.
Proof. by vm_compute. Qed.

Lemma count_open_markResolved sel now (cs : list Conflict) (c : Conflict) :
  NoDup (c_id <$> cs) →
  find (idMatches sel) cs = Some c →
  c_status c = OPEN →
  length (List.filter (λ c, bool_decide (c_status c = OPEN)) cs)
  = S (length (List.filter (λ c, bool_decide (c_status c = OPEN))
                 (markResolved sel now cs))).
Proof.
  induction cs as [|h cs IH]; intros Hnd Hf Hopen; [discriminate |].
  rewrite fmap_cons in Hnd. apply NoDup_cons in Hnd as [Hfresh Hnd].
  simpl in Hf. unfold markResolved. rewrite fmap_cons. simpl.
  destruct (idMatches sel h) eqn:Hh.
  - injection Hf as ->. simpl. rewrite Hopen. simpl. f_equal. f_equal. f_equal.
    symmetry. apply markResolved_unknown. intros c' Hc' Hsel.
    apply idMatches_true in Hh. rewrite Hh in Hsel. injection Hsel as Hid.
    apply Hfresh. rewrite Hid. apply list_elem_of_fmap. by exists c'.
  - destruct (bool_decide (c_status h = OPEN)); simpl;
      [f_equal |]; by apply IH.
Qed.

(** X7. The pending count of the sidebar and the finalize step. With
    distinct conflict ids, finalizing while the selected conflict is OPEN
    lowers the count by exactly one; finalizing with a selection that
    matches no conflict leaves it as it was. *)
Theorem pendingCount_finalize (now : string) (s : StoreState) (c : Conflict) :
  (NoDup (c_id <$> conflicts s) → selectedConflict s = Some c →
   c_status c = OPEN →
   pendingCount s = S (pendingCount (finalizeResolution now s)))
  ∧ (selectedConflict s = None →
     pendingCount (finalizeResolution now s) = pendingCount s).
Proof.
  split.
  - intros Hnd Hsel Hopen. unfold pendingCount. simpl.
    by apply (count_open_markResolved _ _ _ c).
  - intros Hsel. unfold pendingCount. simpl.
    rewrite markResolved_unknown; [reflexivity |].
    intros c' Hc. unfold selectedConflict in Hsel.
    apply idMatches_false, (find_none _ _ Hsel c'). by apply list_elem_of_In.
Qed.

Lemma pendingCount_finalize_witness :
  pendingCount verifying_C001 = S (pendingCount (finalizeResolution t1 verifying_C001))
  ∧ pendingCount (finalizeResolution t1 (selectConflict "C-999" loaded))
    = pendingCount (selectConflict "C-999" loaded).
Proof.
  split.
  - apply (pendingCount_finalize t1 verifying_C001 C001).
    + apply (bool_decide_unpack _). vm_compute. exact I.
    + reflexivity.
    + reflexivity.
  - by apply (pendingCount_finalize t1 (selectConflict "C-999" loaded) C001).
Defined.

Lemma status_partition (cs : list Conflict) :
  (length (List.filter (λ c, bool_decide (c_status c = RESOLVED)) cs)
   + length (List.filter (λ c, bool_decide (c_status c = OPEN)) cs)
   = length cs)%nat.
Proof.
  induction cs as [|c cs IH]; simpl; [reflexivity |].
  destruct (c_status c); simpl; lia.
Qed.

Lemma forallb_filter_all {A} (f : A → bool) (l : list A) :
  forallb f l = true → List.filter f l = l.
Proof.
  induction l as [|x l IH]; simpl; [done |].
  intros [Hx Hl]%andb_true_iff. by rewrite Hx, IH.
Qed.

(** X8. The export. For every store reached from the initial one, the
    audit log has one entry per conflict, the resolved count and the
    pending count of the sidebar add up to the total, and every entry has a
    [resolvedAt] exactly when its status is RESOLVED. When the Export
    button of the top bar is enabled, the registry is not empty, the
    resolved count is the total, and every entry is RESOLVED and stamped. *)
Theorem export_counts (now : string) (acts : list Action) :
  let s := run acts initialState in
  let e := exportData now s in
  length (auditLog e) = totalConflicts e
  ∧ (resolved e + pendingCount s = totalConflicts e)%nat
  ∧ Forall (λ a, is_Some (a_resolvedAt a) ↔ a_status a = RESOLVED) (auditLog e)
  ∧ (allResolved s = true →
     (0 < totalConflicts e)%nat
     ∧ resolved e = totalConflicts e
     ∧ Forall (λ a, a_status a = RESOLVED ∧ is_Some (a_resolvedAt a))
         (auditLog e)).
Proof.
  intros s e.
  assert (Hok : Forall conflict_ok (conflicts s)).
  { apply run_ok. constructor. }
  split; [unfold e; simpl; apply length_fmap |].
  split; [unfold e, pendingCount; simpl; apply status_partition |].
  split.
  - unfold e. simpl. apply Forall_fmap.
    eapply Forall_impl; [exact Hok |]. by intros c Hc.
  - intros Hall. unfold allResolved in Hall.
    apply andb_true_iff in Hall as [Hpos Hall].
    split; [by apply Nat.ltb_lt in Hpos |].
    split; [unfold e; simpl; by rewrite (forallb_filter_all _ _ Hall) |].
    unfold e. simpl. apply Forall_fmap, Forall_forall. intros c Hc. simpl.
    assert (c_status c = RESOLVED) as Hres.
    { pose proof (proj1 (list_elem_of_In _ _) Hc) as HIn.
      apply (proj1 (forallb_forall _ _) Hall) in HIn.
      by apply bool_decide_eq_true in HIn. }
    split; [exact Hres |].
    by apply (proj1 (Forall_forall _ _) Hok c Hc).
Qed.

Lemma export_counts_witness :
  let s := run [ LoadMockData; FinalizeResolution t1;
                 SelectConflict "C-002"; FinalizeResolution t1;
                 SelectConflict "C-003"; FinalizeResolution t2 ] initialState in
  (0 < totalConflicts (exportData t2 s))%nat
  ∧ resolved (exportData t2 s) = totalConflicts (exportData t2 s)
  ∧ Forall (λ a, a_status a = RESOLVED ∧ is_Some (a_resolvedAt a))
      (auditLog (exportData t2 s)).
Proof.
  apply (export_counts t2 [ LoadMockData; FinalizeResolution t1;
                            SelectConflict "C-002"; FinalizeResolution t1;
                            SelectConflict "C-003"; FinalizeResolution t2 ]).
  reflexivity.
Defined.

(** ** After the finalize step *)

Lemma find_markResolved sel now (cs : list Conflict) :
  find (idMatches sel) (markResolved sel now cs)
  = resolveConflict now <$> find (idMatches sel) cs.
Proof.
  unfold markResolved. induction cs as [|c cs IH]; [reflexivity |].
  rewrite fmap_cons. simpl. destruct (idMatches sel c) eqn:Hc; simpl.
  - unfold idMatches in *. simpl. by rewrite Hc.
  - by rewrite Hc.
Qed.

(** X9. After [finalizeResolution] the workspace renders the resolved
    screen of the conflict that was selected, now RESOLVED and stamped with
    the time of the call; when no conflict has the selected id it renders
    the prompt to select a conflict, although the mode is resolved. *)
Theorem finalize_shows_resolved (now : string) (s : StoreState) :
  ConflictWorkspace (finalizeResolution now s)
  = match selectedConflict s with
    | Some c => ResolvedView (resolveConflict now c)
    | None => SelectPrompt
    end.
Proof.
  unfold ConflictWorkspace, selectedConflict. simpl.
  rewrite find_markResolved.
  by destruct (find _ (conflicts s)).
Qed.

Lemma resolved_screen_selected (s : StoreState) (c : Conflict) :
  ConflictWorkspace s = ResolvedView c →
  selectedConflict s = Some c ∧ workspaceMode s = M_resolved.
Proof.
  unfold ConflictWorkspace.
  destruct (workspaceMode s), (selectedConflict s); try discriminate.
  by intros [= ->].
Qed.

Lemma markResolved_selected_resolved sel now (cs : list Conflict) (x : Conflict) :
  x ∈ markResolved sel now cs → sel = Some (c_id x) → c_status x = RESOLVED.
Proof.
  unfold markResolved. intros Hx Hsel.
  apply list_elem_of_fmap in Hx as (y & -> & _).
  destruct (idMatches sel y) eqn:Hy; [reflexivity |].
  apply idMatches_false in Hy. by destruct Hy.
Qed.

(** X10. The all-clear screen after a real finalize: when the advance
    that follows [finalizeResolution] ends in all_cleared, every conflict of
    the registry is RESOLVED (and the registry is not empty), so the Export
    button of the top bar is enabled. *)
Theorem all_cleared_means_all_resolved (now : string) (s : StoreState)
    (c : Conflict) :
  ConflictWorkspace (finalizeResolution now s) = ResolvedView c →
  workspaceMode (advance (finalizeResolution now s)) = M_all_cleared →
  allResolved (advance (finalizeResolution now s)) = true
  ∧ selectedConflictId (advance (finalizeResolution now s)) = None.
Proof.
  intros Hscreen Hmode. unfold advance in *. rewrite Hscreen in *.
  apply resolved_screen_selected in Hscreen as [Hsel _].
  unfold handleNext in *.
  destruct (nextConflict c (finalizeResolution now s)) eqn:Hnext;
    [discriminate Hmode |].
  split; [| reflexivity].
  unfold nextConflict in Hnext. apply find_nowhere in Hnext.
  unfold selectedConflict in Hsel.
  pose proof (find_some _ _ Hsel) as [Hin Hid]. apply idMatches_true in Hid.
  unfold allResolved. simpl in *. apply andb_true_iff. split.
  - destruct (markResolved _ _ _); [by destruct Hin | reflexivity].
  - apply forallb_forall. intros x Hx. apply bool_decide_eq_true.
    apply list_elem_of_In in Hx.
    pose proof (proj1 (Forall_forall _ _) Hnext x Hx) as Hcand.
    apply next_candidate_false in Hcand as [Hst | Hsame].
    + by destruct (c_status x).
    + apply (markResolved_selected_resolved _ _ _ _ Hx). by rewrite Hsame.
Qed.

Lemma all_cleared_means_all_resolved_witness :
  let s := run [ FinalizeResolution t1; SelectConflict "C-002";
                 FinalizeResolution t1; SelectConflict "C-003" ] loaded in
  allResolved (advance (finalizeResolution t2 s)) = true
  ∧ selectedConflictId (advance (finalizeResolution t2 s)) = None.
Proof.
  apply (all_cleared_means_all_resolved t2 _ (resolveConflict t2 C003));
    reflexivity.
Defined.

(** ** What no action changes *)

Lemma evolves_refl (c : Conflict) : evolves c c.
Proof. by repeat split. Qed.

Lemma evolves_trans (c1 c2 c3 : Conflict) :
  evolves c1 c2 → evolves c2 c3 → evolves c1 c3.
Proof.
  intros (? & ? & ? & ? & ? & ? & ?) (? & ? & ? & ? & ? & ? & ?).
  repeat split; try congruence. auto.
Qed.

Lemma evolves_markResolved sel now (cs : list Conflict) :
  Forall2 evolves cs (markResolved sel now cs).
Proof.
  unfold markResolved. apply Forall2_fmap_r, Forall_Forall2_diag, Forall_forall.
  intros c _. simpl. destruct (idMatches sel c); [| apply evolves_refl].
  by repeat split.
Qed.

Lemma Forall2_evolves_refl (cs : list Conflict) : Forall2 evolves cs cs.
Proof. apply Forall_Forall2_diag, Forall_forall. intros c _. apply evolves_refl. Qed.

Lemma Forall2_evolves_trans (l1 l2 l3 : list Conflict) :
  Forall2 evolves l1 l2 → Forall2 evolves l2 l3 → Forall2 evolves l1 l3.
Proof.
  intros H12. revert l3. induction H12 as [|x y l1 l2 Hxy _ IH]; intros l3 H23.
  - by inversion H23.
  - inversion H23 as [|? z ? l3' Hyz H23']; subst.
    constructor; [by eapply evolves_trans | by apply IH].
Qed.

Lemma step_evolves (a : Action) (s : StoreState) :
  keepsRegistry a = true → Forall2 evolves (conflicts s) (conflicts (step a s)).
Proof.
  destruct a; simpl; try discriminate; intros _;
    try apply Forall2_evolves_refl.
  - unfold startResolution.
    destruct (selectedConflictId s) as [[|? ?]|]; apply Forall2_evolves_refl.
  - apply evolves_markResolved.
  - unfold updateManualEdit.
    destruct (resolutionDraft s); apply Forall2_evolves_refl.
Qed.

(** X11. Under any sequence of actions other than login, logout and
    loadMockData, the registry keeps its length and, place by place, each
    conflict keeps its id, type, title, description, mentions and
    recommendation, and a conflict that is RESOLVED stays RESOLVED: no
    action deletes a conflict, edits a mention or reopens a conflict. *)
Theorem registry_evolves (acts : list Action) (s : StoreState) :
  Forall (λ a, keepsRegistry a = true) acts →
  Forall2 evolves (conflicts s) (conflicts (run acts s)).
Proof.
  intros Hacts. revert s.
  induction Hacts as [|a acts Ha _ IH]; intros s;
    [apply Forall2_evolves_refl |].
  rewrite run_cons.
  eapply Forall2_evolves_trans; [by apply step_evolves | apply IH].
Qed.

Lemma registry_evolves_witness :
  Forall2 evolves (conflicts loaded)
    (conflicts (run [ StartResolution; UpdateDraft (setSelectedTemporalId "m3");
                      GoToPreview; SubmitResolution; FinalizeResolution t1;
                      FinalizeResolution t2; SetAllCleared;
                      SelectConflict "C-001"; InitManualDraft C001;
                      UpdateManualEdit "m1" "We are HITRUST certified" UPDATE ]
                  loaded)).
Proof. apply registry_evolves. by repeat constructor. Defined.

(** ** Modes and drafts *)

Lemma step_view_no_draft (a : Action) (s : StoreState) :
  (workspaceMode s = M_view → resolutionDraft s = None) →
  workspaceMode (step a s) = M_view → resolutionDraft (step a s) = None.
Proof.
  intros Hinv.
  destruct a; simpl; try done; try exact Hinv.
  - unfold startResolution.
    destruct (selectedConflictId s) as [[|? ?]|]; simpl; try exact Hinv.
    discriminate.
  - intros Hview. by rewrite (Hinv Hview).
  - unfold updateManualEdit.
    destruct (resolutionDraft s) eqn:Hd; simpl; [| by rewrite Hd].
    intros Hview. by specialize (Hinv Hview).
Qed.

Lemma run_view_no_draft (acts : list Action) (s : StoreState) :
  (workspaceMode s = M_view → resolutionDraft s = None) →
  workspaceMode (run acts s) = M_view → resolutionDraft (run acts s) = None.
Proof.
  revert s. induction acts as [|a acts IH]; intros s Hinv; [exact Hinv |].
  rewrite run_cons. by apply IH, step_view_no_draft.
Qed.

(** X12. In every store reached from the initial one by any sequence of
    actions, the view mode carries no draft. *)
Theorem view_mode_has_no_draft (acts : list Action) :
  workspaceMode (run acts initialState) = M_view →
  resolutionDraft (run acts initialState) = None.
Proof. by apply run_view_no_draft. Qed.

Lemma view_mode_has_no_draft_witness :
  resolutionDraft
    (run [ LoadMockData; StartResolution; UpdateDraft (setReasoning "ok");
           GoToPreview; ReturnToEdit; CancelResolution ] initialState)
  = None.
Proof.
  by apply (view_mode_has_no_draft
              [ LoadMockData; StartResolution; UpdateDraft (setReasoning "ok");
                GoToPreview; ReturnToEdit; CancelResolution ]).
Defined.

(** The converse fails: the draft outlives the finalize step and is still
    there on the all-clear screen. *)
Example draft_survives_finalize :
  let s := run [ StartResolution; UpdateDraft (setSelectedTemporalId "m3");
                 GoToPreview; SubmitResolution; FinalizeResolution t1;
                 SetAllCleared ] loaded in
  workspaceMode s = M_all_cleared
  ∧ (selectedTemporalId <$> resolutionDraft s) = Some (Some "m3").
Proof. by split. Qed.

(** X13. Round trips, in every store reached from the initial one: from
    the resolve mode, going to the preview and back changes nothing; from
    the view mode with a selected conflict or none, starting a resolution
    and cancelling it changes nothing. *)
Theorem edit_roundtrips (acts : list Action) :
  let s := run acts initialState in
  (workspaceMode s = M_resolve → returnToEdit (goToPreview s) = s)
  ∧ (workspaceMode s = M_view → cancelResolution (startResolution s) = s).
Proof.
  intros s. split.
  - intros Hmode. apply store_eq; try reflexivity. by rewrite Hmode.
  - intros Hmode.
    pose proof (view_no := run_view_no_draft acts initialState (λ _, eq_refl) Hmode).
    fold s in view_no. unfold startResolution.
    destruct (selectedConflictId s) as [[|? ?]|] eqn:Hsel;
      apply store_eq; try reflexivity; simpl; congruence.
Qed.

Lemma edit_roundtrips_witness :
  returnToEdit (goToPreview contradiction_good) = contradiction_good
  ∧ cancelResolution (startResolution loaded) = loaded.
Proof.
  split.
  - by apply (edit_roundtrips
                [ LoadMockData; SelectConflict "C-002"; StartResolution;
                  UpdateDraft (setSelectedCorrectId "m4");
                  UpdateDraft (setReasoning "Confirmed via compliance audit") ]).
  - by apply (edit_roundtrips [LoadMockData]).
Defined.

Lemma default_twice {A} (x : A) (a : option A) :
  default (default x a) a = default x a.
Proof. by destruct a. Qed.

Lemma default_swap {A} (x : A) (a b : option A) :
  negb (bool_decide (is_Some a) && bool_decide (is_Some b)) = true →
  default (default x a) b = default (default x b) a.
Proof.
  destruct a, b; try reflexivity.
  intros H. cbv in H. discriminate H.
Qed.

(** X14. [updateDraft] is idempotent, and two partial drafts that share
    no key can be applied in either order. *)
Theorem updateDraft_compose (u1 u2 : DraftUpdates) (s : StoreState) :
  updateDraft u1 (updateDraft u1 s) = updateDraft u1 s
  ∧ (disjointKeys u1 u2 = true →
     updateDraft u2 (updateDraft u1 s) = updateDraft u1 (updateDraft u2 s)).
Proof.
  split.
  - unfold updateDraft. simpl. destruct (resolutionDraft s) as [d|]; [| done].
    apply store_eq; try reflexivity. simpl. f_equal.
    apply draft_eq; simpl; apply default_twice.
  - unfold disjointKeys. rewrite !andb_true_iff.
    intros [[[[[H1 H2] H3] H4] H5] H6].
    unfold updateDraft. simpl. destruct (resolutionDraft s) as [d|]; [| done].
    apply store_eq; try reflexivity. simpl. f_equal.
    apply draft_eq; simpl; by apply default_swap.
Qed.

Lemma updateDraft_compose_witness :
  updateDraft (setReasoning "Confirmed via compliance audit")
    (updateDraft (setSelectedCorrectId "m4") contradiction_ok)
  = updateDraft (setSelectedCorrectId "m4")
      (updateDraft (setReasoning "Confirmed via compliance audit")
         contradiction_ok).
Proof. by apply updateDraft_compose. Defined.

(** ** What the preview shows *)

Lemma hasDirtyEdit_true (es : gmap string ManualEdit) :
  hasDirtyEdit es = true ↔ ∃ mid e, es !! mid = Some e ∧ isDirty e = true.
Proof.
  unfold hasDirtyEdit. rewrite existsb_exists. split.
  - intros ([mid e] & Hin & Hd). exists mid, e. split; [| exact Hd].
    by apply elem_of_map_to_list, list_elem_of_In.
  - intros (mid & e & Hl & Hd). exists (mid, e). split; [| exact Hd].
    by apply list_elem_of_In, elem_of_map_to_list.
Qed.

Lemma initialEdits_clean (ms : list Mention) : hasDirtyEdit (initialEdits ms) = false.
Proof.
  apply not_true_is_false. intros (mid & e & Hl & Hd)%hasDirtyEdit_true.
  apply initialEdits_lookup in Hl as (m & _ & _ & ->). discriminate.
Qed.

(** X15. The "Text Modifications" box of the preview. Right after the
    manual editor is opened, on any conflict, the box is not rendered; once
    a text different from the original has been stored for a mention found
    in the selected conflict, it is rendered. *)
Theorem text_modifications_box (c c' : Conflict) (s : StoreState)
    (mid t : string) (a : ManualAction) (m : Mention) :
  showsTextModifications c' (resolutionDraft (initManualDraft c s)) = false
  ∧ (is_Some (resolutionDraft s) → originalMention s mid = Some m →
     t ≠ m_text m →
     showsTextModifications c'
       (resolutionDraft (updateManualEdit mid t a s)) = true).
Proof.
  split.
  - unfold showsTextModifications. simpl.
    by rewrite initialEdits_clean, andb_false_r.
  - intros [d Hd] Horig Hne. unfold showsTextModifications, updateManualEdit.
    rewrite Hd, Horig. simpl. rewrite orb_true_r. simpl.
    apply hasDirtyEdit_true. eexists mid, _. rewrite lookup_insert_eq.
    split; [reflexivity |]. simpl.
    by apply negb_true_iff, String.eqb_neq.
Qed.

Lemma text_modifications_box_witness :
  showsTextModifications C003
    (resolutionDraft
       (updateManualEdit "m6" "Monthly fee: $52,000 per month" UPDATE
          (initManualDraft C003 editing_C003))) = true.
Proof.
  apply (text_modifications_box C003 C003 (initManualDraft C003 editing_C003)
           "m6" _ UPDATE m6).
  - simpl. eauto.
  - reflexivity.
  - discriminate.
Defined.



(** The two dirty edits above: one row rendered, one skipped. *)
Example preview_rows :
  let s := run [ InitManualDraft C003;
                 UpdateManualEdit "m6" "Monthly fee: $52,000 per month" UPDATE;
                 UpdateManualEdit "m99" "Total" KEEP ] editing_C003 in
  ("m6", Some (simpleDiff "Monthly fee: $50,000 per month"
                          "Monthly fee: $52,000 per month"))
    ∈ previewDiffs C003 (resolutionDraft s)
  ∧ ("m99", None) ∈ previewDiffs C003 (resolutionDraft s)
  ∧ length (previewDiffs C003 (resolutionDraft s)) = 2%nat.
Proof.
  vm_compute. repeat split; repeat constructor.
Qed.

(** ** The progress of the analyzing screen *)

Lemma nextStage_stageAfter (n : nat) :
  (n < 100)%nat → nextStage n (stageAfter n) = stageAfter (S n).
Proof.
  intros Hn. unfold nextStage, stageAfter.
  repeat match goal with
         | |- context [(?a <? ?b)%nat] => destruct (Nat.ltb_spec a b)
         | |- context [(?a <=? ?b)%nat] => destruct (Nat.leb_spec a b)
         end; simpl; try lia; reflexivity.
Qed.

Lemma ticks_S (n : nat) (a : Analyzing) : ticks (S n) a = tick (ticks n a).
Proof. reflexivity. Qed.

Lemma ticks_running (n : nat) :
  (n ≤ 100)%nat → ticks n analyzingStart = mkAnalyzing n (stageAfter n) true 0.
Proof.
  induction n as [|n IH]; intros Hn; [reflexivity |].
  rewrite ticks_S, IH by lia. unfold tick. simpl running. simpl progress.
  destruct (Nat.leb_spec 100 n); [lia |].
  simpl stage. simpl completions.
  by rewrite Nat.add_1_r, nextStage_stageAfter by lia.
Qed.

Lemma ticks_done (n : nat) :
  (100 < n)%nat →
  ticks n analyzingStart = mkAnalyzing 100 "Finalizing Registry..." false 1.
Proof.
  induction n as [|n IH]; intros Hn; [lia |].
  rewrite ticks_S. destruct (decide (n = 100)) as [-> | Hne].
  - by rewrite ticks_running.
  - by rewrite IH by lia.
Qed.

(** X17. The interval of the analyzing screen, started at 0: after [n]
    firings the progress is [min n 100], so it never passes 100; the
    completion callback is scheduled exactly once, by the firing that finds
    the progress at 100 (the 101st), which also stops the interval; and the
    label shown moves through the five stages at 21, 41, 71 and 91. *)
Theorem analyzing_progress (n : nat) :
  let a := ticks n analyzingStart in
  progress a = Nat.min n 100
  ∧ running a = (n <=? 100)%nat
  ∧ completions a = (if (100 <? n)%nat then 1 else 0)%nat
  ∧ stage a = stageAfter n.
Proof.
  intros a. unfold a. destruct (Nat.le_gt_cases n 100) as [Hle | Hgt].
  - rewrite (ticks_running n Hle). simpl.
    rewrite (proj2 (Nat.leb_le n 100) Hle).
    rewrite (proj2 (Nat.ltb_ge 100 n) Hle).
    repeat split. lia.
  - rewrite (ticks_done n Hgt). simpl.
    rewrite (proj2 (Nat.leb_gt n 100) Hgt).
    rewrite (proj2 (Nat.ltb_lt 100 n) Hgt).
    repeat split; [lia |]. unfold stageAfter.
    repeat match goal with
           | |- context [(?a <=? ?b)%nat] => destruct (Nat.leb_spec a b)
           end; try lia; reflexivity.
Qed.

(** ** The action footer *)

(** X18. The footer is inert on a conflict that is RESOLVED, when no
    conflict has the selected id, and in the modes verifying, resolved and
    all_cleared: there, a click on any of its buttons leaves the store as it
    is. *)
Theorem footer_inert (b : FooterButton) (s : StoreState) :
  selectedConflict s = None
  ∨ (∃ c, selectedConflict s = Some c ∧ c_status c = RESOLVED)
  ∨ workspaceMode s = M_verifying
  ∨ workspaceMode s = M_resolved
  ∨ workspaceMode s = M_all_cleared →
  clickFooter b s = s.
Proof.
  unfold clickFooter, ConflictWorkspace, footerButtons.
  intros [Hnone | [(c & Hc & Hres) | [Hm | [Hm | Hm]]]].
  - rewrite Hnone. by destruct (workspaceMode s).
  - rewrite Hc. destruct (workspaceMode s); try reflexivity; by rewrite Hres.
  - rewrite Hm. by destruct (selectedConflict s).
  - rewrite Hm. by destruct (selectedConflict s).
  - by rewrite Hm.
Qed.

Lemma footer_inert_witness :
  clickFooter QuickResolve (selectConflict "C-001" resolved_C001)
  = selectConflict "C-001" resolved_C001.
Proof.
  apply footer_inert. right. left. exists (resolveConflict t1 C001).
  by split.
Defined.

(** X19. Opening a resolution from the view mode on an OPEN conflict [c].
    "Edit Manually" and "Edit to Fix", when rendered, always create a draft
    for [c] in the resolve mode. "Quick Resolve" and "Pick Correct", when
    rendered, create an empty draft for [c] in the resolve mode when the id
    of [c] is not the empty string, and do nothing when it is. *)
Theorem footer_opens_draft (b : FooterButton) (s : StoreState) (c : Conflict) :
  ConflictWorkspace s = WorkspaceView c →
  workspaceMode s = M_view →
  b ∈ footerButtons c M_view →
  (b = EditManually ∨ b = EditToFix →
   workspaceMode (clickFooter b s) = M_resolve
   ∧ resolutionDraft (clickFooter b s)
     = Some (mkDraft (c_id c) None None None None (initialEdits (c_mentions c))))
  ∧ (b = QuickResolve ∨ b = PickCorrect →
     if String.eqb (c_id c) ""
     then clickFooter b s = s
     else workspaceMode (clickFooter b s) = M_resolve
          ∧ resolutionDraft (clickFooter b s)
            = Some (mkDraft (c_id c) None None None None ∅)).
Proof.
  intros Hscreen Hmode Hb. unfold clickFooter. rewrite Hscreen, Hmode.
  rewrite (bool_decide_eq_true_2 _ Hb).
  assert (Hsel : selectedConflictId s = Some (c_id c)).
  { unfold ConflictWorkspace in Hscreen. rewrite Hmode in Hscreen.
    destruct (selectedConflict s) as [c'|] eqn:Hc'; [| discriminate].
    injection Hscreen as ->. unfold selectedConflict in Hc'.
    apply find_some in Hc' as [_ Hid]. by apply idMatches_true in Hid. }
  split.
  - by intros [-> | ->].
  - intros Hstart.
    assert (onClick b c s = startResolution s) as -> by (by destruct Hstart as [-> | ->]).
    unfold startResolution. rewrite Hsel.
    by destruct (c_id c).
Qed.

Lemma footer_opens_draft_witness :
  (workspaceMode (clickFooter EditManually loaded) = M_resolve
   ∧ resolutionDraft (clickFooter EditManually loaded)
     = Some (mkDraft "C-001" None None None None (initialEdits (c_mentions C001))))
  ∧ (workspaceMode (clickFooter QuickResolve loaded) = M_resolve
     ∧ resolutionDraft (clickFooter QuickResolve loaded)
       = Some (mkDraft "C-001" None None None None ∅)).
Proof.
  split.
  - apply (footer_opens_draft EditManually loaded C001); try reflexivity.
    + by left.
    + by left.
  - apply (footer_opens_draft QuickResolve loaded C001); try reflexivity.
    + right. by left.
    + by left.
Defined.

(** A conflict whose id is the empty string: "Quick Resolve" is rendered
    and does nothing, "Edit Manually" opens the editor. *)
Example empty_id_conflict :
  let c := mkConflict "" TEMPORAL "t" "d" [m6] OPEN None None in
  let s := mkStore V_dashboard None [] [c] (Some "") M_view None in
  QuickResolve ∈ footerButtons c (workspaceMode s)
  ∧ clickFooter QuickResolve s = s
  ∧ workspaceMode (clickFooter EditManually s) = M_resolve.
Proof. repeat split. by right; left. Qed.
